(** * The transfer-list widget of [transferlist_aio.py]

    A shallow embedding of the two server-side callbacks of the widget
    ([filter_checklist], [transfer_values]), of its constructor
    ([TransferList.__init__] with [TransferList.checklist]) and of the part of
    the Dash dispatch they rely on, followed by the properties of the
    natural-language specification that concern them.

    Modelling conventions.
    - Python [str] is [string]; [str.lower] folds the ASCII letters only.
    - An item (a [dict] with the keys ["value"] and ["label"]) is a record.
    - [None] is [None]; an argument that may be [None] has an [option] type.
    - A Python exception is [Raise] with the name of its class.
    - [dash.no_update] is the constructor [no_update] of [Out]. *)

From stdpp Require Import base list strings gmap.
From Stdlib Require Import Ascii ZArith.

(** ** Python values *)

(** Truthiness of a [str] that may be [None]. *)
Definition truthy_str (s : option string) : bool :=
  match s with
  | None => false
  | Some s => negb (bool_decide (s = EmptyString))
  end.

(** Truthiness of a list that may be [None]. *)
Definition truthy_list {A : Type} (l : option (list A)) : bool :=
  match l with
  | Some (_ :: _) => true
  | _ => false
  end.

(** [any(xs)] over the [n_clicks] of buttons: [None] and [0] are falsy. *)
Definition truthy_clicks (n : option nat) : bool :=
  match n with
  | Some (S _) => true
  | _ => false
  end.

Definition any (xs : list (option nat)) : bool := existsb truthy_clicks xs.

Definition lower_ascii (c : ascii) : ascii :=
  let n := nat_of_ascii c in
  if (65 <=? n)%nat && (n <=? 90)%nat then ascii_of_nat (n + 32) else c.

(** [s.lower()] *)
Fixpoint lower (s : string) : string :=
  match s with
  | EmptyString => EmptyString
  | String c s' => String (lower_ascii c) (lower s')
  end.

(** [s.startswith(t)] *)
Fixpoint startswith (t s : string) : bool :=
  match t, s with
  | EmptyString, _ => true
  | String a t', String b s' => bool_decide (a = b) && startswith t' s'
  | String _ _, EmptyString => false
  end.

(** [t in s] on strings: [t] occurs in [s] at some position. *)
Fixpoint str_in (t s : string) : bool :=
  startswith t s ||
  match s with
  | EmptyString => false
  | String _ s' => str_in t s'
  end.

(** ** Exceptions *)

Inductive result (A : Type) : Type :=
  | Ok (a : A)
  | Raise (exn : string).
Arguments Ok {A} a.
Arguments Raise {A} exn.

Global Instance result_ret : MRet result := λ A a, Ok a.
Global Instance result_bind : MBind result := λ A B f r,
  match r with
  | Ok a => f a
  | Raise e => Raise e
  end.

(** [l[i]] on a list. *)
Definition getitem {A : Type} (l : list A) (i : nat) : result A :=
  match l !! i with
  | Some x => Ok x
  | None => Raise "IndexError"
  end.

(** [l[i]] when [l] may be [None]. *)
Definition getitem_opt {A : Type} (l : option (list A)) (i : nat) : result A :=
  match l with
  | None => Raise "TypeError"
  | Some l => getitem l i
  end.

(** [l[:n]] for an [int] [n]: a negative [n] counts from the end. *)
Definition slice_to {A : Type} (l : list A) (n : Z) : list A :=
  if (0 <=? n)%Z then take (Z.to_nat n) l
  else take (length l - Z.to_nat (- n)) l.

(** ** The JSON texts of the [data-*] attributes

    The widget stores [placeholder], [nothingFound] and
    [transferAllMatchingFilters] as JSON texts on its hidden input, so only
    [null], the booleans and strings occur.  [json_dumps] escapes the quote and
    the backslash; the other characters are written as they are (Python
    writes control and non-ASCII characters as backslash escapes, which
    [json.loads] reads back to the same string). *)

Inductive jvalue : Type :=
  | JNull
  | JBool (b : bool)
  | JStr (s : string).

Definition quote : ascii := "034"%char.
Definition backslash : ascii := "092"%char.

Fixpoint json_escape (s : string) : string :=
  match s with
  | EmptyString => EmptyString
  | String c s' =>
      if bool_decide (c = quote) || bool_decide (c = backslash)
      then String backslash (String c (json_escape s'))
      else String c (json_escape s')
  end.

Definition json_dumps (v : jvalue) : string :=
  match v with
  | JNull => "null"
  | JBool true => "true"
  | JBool false => "false"
  | JStr s => String quote (json_escape s +:+ String quote EmptyString)
  end.

(** Reads the body of a JSON string up to its closing quote, which has to be
    the last character of the text. *)
Fixpoint json_unescape (s : string) : option string :=
  match s with
  | EmptyString => None
  | String c s' =>
      if bool_decide (c = quote) then
        match s' with
        | EmptyString => Some EmptyString
        | String _ _ => None
        end
      else if bool_decide (c = backslash) then
        match s' with
        | String d s'' =>
            if bool_decide (d = quote) || bool_decide (d = backslash)
            then String d <$> json_unescape s''
            else None
        | EmptyString => None
        end
      else String c <$> json_unescape s'
  end.

Definition json_loads (t : string) : result jvalue :=
  if bool_decide (t = "null") then Ok JNull
  else if bool_decide (t = "true") then Ok (JBool true)
  else if bool_decide (t = "false") then Ok (JBool false)
  else
    match t with
    | String c body =>
        if bool_decide (c = quote) then
          match json_unescape body with
          | Some s => Ok (JStr s)
          | None => Raise "JSONDecodeError"
          end
        else Raise "JSONDecodeError"
    | EmptyString => Raise "JSONDecodeError"
    end.

(** Truthiness of a decoded JSON value. *)
Definition truthy_json (v : jvalue) : bool :=
  match v with
  | JNull => false
  | JBool b => b
  | JStr s => truthy_str (Some s)
  end.

Definition json_of_str (s : option string) : jvalue :=
  match s with
  | None => JNull
  | Some s => JStr s
  end.

(** ** Items and components *)

(** [{"value": ..., "label": ...}] *)
Record Item : Type := mkItem { value : string; label : string }.

Global Instance Item_eq_dec : EqDecision Item.
Proof. solve_decision. Defined.

(** [dmc.Checkbox(label=value["label"], value=value["value"], ...)] *)
Record Checkbox : Type := mkCheckbox { cb_label : string; cb_value : string }.

Definition checkbox (v : Item) : Checkbox :=
  {| cb_label := label v; cb_value := value v |}.

(** The [children] of a checklist: [None], a list of checkboxes, or a
    [dmc.Text(content, p="0.5rem", c="dimmed")]. *)
Inductive Children : Type :=
  | NoChildren
  | Checkboxes (cs : list Checkbox)
  | Text (content : jvalue).

Inductive Out (A : Type) : Type :=
  | no_update
  | upd (a : A).
Arguments no_update {A}.
Arguments upd {A} a.

(** ** The callbacks *)

(** [ctx.triggered_id]: the dictionary id of the component whose property
    fired the callback ([base_id], [side_id]). *)
Record TriggeredId : Type := mkId { part : string; aio_id : string; side : string }.

(** The [part] names of [TransferList.ids]. *)
Definition search_part : string := "__trl-search-input".
Definition transfer_part : string := "__trl-transfer-input".
Definition transfer_all_part : string := "__trl-transfer-all-input".

(** [0 if side == "left" else 1] *)
Definition side_index (side : string) : nat :=
  if bool_decide (side = "left") then 0 else 1.

(** The condition of the two search comprehensions:
    [not search or search.lower() in v["label"].lower()]. *)
Definition matches (search : option string) (v : Item) : bool :=
  negb (truthy_str search) ||
  match search with
  | Some q => str_in (lower q) (lower (label v))
  | None => false
  end.

(** [[v for v in value if not search or search.lower() in v["label"].lower()]] *)
Definition filtered_items (search : option string) (items : list Item) : list Item :=
  filter (λ v, matches search v) items.

(** [[s for s in (selection or []) if s in filtered_values]] *)
Definition updated_selection (selection : option (list string))
    (filtered_values : list string) : list string :=
  filter (λ s, s ∈ filtered_values) (default [] selection).

(** [filter_checklist], the callback of a search input. *)
Definition filter_checklist (triggered_id : option TriggeredId)
    (search : option string) (values : list (list Item))
    (nothing_found placeholder : string) (selection : option (list string))
  : result (Out Children * Out (list string)) :=
  match triggered_id with
  | None => Ok (no_update, no_update)
  | Some tid =>
      items ← getitem values (side_index (side tid));
      let filtered := filtered_items search items in
      let filtered_values := value <$> filtered in
      let sel := updated_selection selection filtered_values in
      if truthy_list (Some filtered) then
        Ok (upd (Checkboxes (checkbox <$> filtered)), upd sel)
      else if truthy_str search && truthy_str (Some nothing_found) then
        c ← json_loads nothing_found;
        Ok (upd (Text c), upd sel)
      else if negb (truthy_str search) && truthy_str (Some placeholder) then
        c ← json_loads placeholder;
        Ok (upd (Text c), upd sel)
      else Ok (upd NoChildren, upd sel)
  end.

(** The four outputs of [transfer_values]: the value of the hidden input and,
    for the two sides, the checklist children, the checklist values and the
    search texts. *)
Definition Patch : Type :=
  Out (list (list Item)) * Out (list (Out Children)) *
  Out (list (Out (list string))) * Out (list (Out string)).

(** The [transferred] list of [transfer_values]: the selection of the side for
    the transfer button, otherwise the values of the side, restricted to the
    search when [transfer_matching] decodes to a true value. *)
Definition transferred_values (tid : TriggeredId)
    (selection : list (option (list string))) (search : list (option string))
    (current_value : list (list Item)) (transfer_matching : string)
  : result (option (list string)) :=
  let i := side_index (side tid) in
  if bool_decide (part tid = transfer_part) then getitem selection i
  else
    tm ← json_loads transfer_matching;
    if truthy_json tm then
      search_ ← getitem search i;
      items ← getitem current_value i;
      Ok (Some (value <$> filtered_items search_ items))
    else
      items ← getitem current_value i;
      Ok (Some (value <$> (items : list Item))).

(** [new_value]: the items of the side whose value is in [transferred] leave
    it and are appended to the other side. *)
Definition new_value (side : string) (current_value : list (list Item))
    (transferred : list string) : result (list Item * list Item) :=
  cv0 ← getitem current_value 0;
  cv1 ← getitem current_value 1;
  if bool_decide (side = "left") then
    Ok (filter (λ v, value v ∉ transferred) cv0,
        cv1 ++ filter (λ v, value v ∈ transferred) cv0)
  else
    Ok (cv0 ++ filter (λ v, value v ∈ transferred) cv1,
        filter (λ v, value v ∉ transferred) cv1).

(** One entry of [new_children]. *)
Definition new_children (placeholder : jvalue) (items : list Item) : Children :=
  if truthy_list (Some items) then Checkboxes (checkbox <$> items)
  else Text placeholder.

(** [transfer_values], the callback of the four transfer buttons. *)
Definition transfer_values (triggered_id : option TriggeredId)
    (trigger1 trigger2 : list (option nat))
    (selection : list (option (list string))) (search : list (option string))
    (current_value : list (list Item)) (placeholder transfer_matching : string)
  : result Patch :=
  match triggered_id with
  | Some tid =>
      if any trigger1 || any trigger2 then
        transferred ← transferred_values tid selection search current_value
                        transfer_matching;
        if negb (truthy_list transferred) then
          Ok (no_update, upd [no_update; no_update],
              upd [no_update; no_update], upd [no_update; no_update])
        else
          '(n0, n1) ← new_value (side tid) current_value (default [] transferred);
          ph ← json_loads placeholder;
          Ok (upd [n0; n1],
              upd [upd (new_children ph n0); upd (new_children ph n1)],
              upd [upd []; upd []],
              upd [upd EmptyString; upd EmptyString])
      else Ok (no_update, no_update, no_update, no_update)
  | None => Ok (no_update, no_update, no_update, no_update)
  end.

(** ** The constructor *)

(** The arguments of [TransferList.__init__] that reach the list logic. *)
Record Config : Type := mkConfig {
  cfg_aio_id : string;
  cfg_limit : option Z;
  cfg_nothingFound : option string;
  cfg_placeholder : option string;
  cfg_showTransferAll : bool;
  cfg_titles : option (list string);
  cfg_transferAllMatchingFilters : bool;
  cfg_value : option (list (list Item));
}.

Inductive Side : Type := Left | Right.

Definition side_name (s : Side) : string :=
  match s with
  | Left => "left"
  | Right => "right"
  end.

Definition other (s : Side) : Side :=
  match s with
  | Left => Right
  | Right => Left
  end.

(** A property that the left and the right component both have. *)
Record Sides (A : Type) : Type := mkSides { on_left : A; on_right : A }.
Arguments mkSides {A} on_left on_right.
Arguments on_left {A} s.
Arguments on_right {A} s.

Definition at_side {A : Type} (s : Side) (p : Sides A) : A :=
  match s with
  | Left => on_left p
  | Right => on_right p
  end.

Definition set_side {A : Type} (s : Side) (x : A) (p : Sides A) : Sides A :=
  match s with
  | Left => mkSides x (on_right p)
  | Right => mkSides (on_left p) x
  end.

(** What the wildcard [ALL] collects: the left component first. *)
Definition both {A : Type} (p : Sides A) : list A := [on_left p; on_right p].

(** The component tree, reduced to the properties the callbacks read and
    write. *)
Record Widget : Type := mkWidget {
  w_aio_id : string;
  w_titles : list string;
  w_showTransferAll : bool;
  main_value : list (list Item);
  data_placeholder : string;
  data_nothingfound : string;
  data_transferallmatchingfilters : string;
  checklist_children : Sides Children;
  checklist_value : Sides (option (list string));
  search_value : Sides (option string);
  transfer_n_clicks : Sides (option nat);
  transfer_all_n_clicks : Sides (option nat);
}.

Module TransferList.

(** [TransferList.checklist]: the initial checkboxes of one side. *)
Definition checklist (items : list Item) (limit : option Z) : Children :=
  let items :=
    match limit with
    | Some n => if bool_decide (n = 0%Z) then items else slice_to items n
    | None => items
    end in
  Checkboxes (checkbox <$> items).

(** [[dmc.Text(titles[i], fw=600)] if titles else []] *)
Definition title (titles : option (list string)) (i : nat) : result (list string) :=
  if truthy_list titles then t ← getitem_opt titles i; Ok [t] else Ok [].

(** [TransferList.__init__]: the left stack, the right stack, then the
    hidden input that holds the value and the encoded settings. *)
Definition __init__ (cfg : Config) : result Widget :=
  t0 ← title (cfg_titles cfg) 0;
  v0 ← getitem_opt (cfg_value cfg) 0;
  let left := checklist v0 (cfg_limit cfg) in
  t1 ← title (cfg_titles cfg) 1;
  v1 ← getitem_opt (cfg_value cfg) 1;
  let right := checklist v1 (cfg_limit cfg) in
  Ok {| w_aio_id := cfg_aio_id cfg;
        w_titles := t0 ++ t1;
        w_showTransferAll := cfg_showTransferAll cfg;
        main_value := default [] (cfg_value cfg);
        data_placeholder := json_dumps (json_of_str (cfg_placeholder cfg));
        data_nothingfound := json_dumps (json_of_str (cfg_nothingFound cfg));
        data_transferallmatchingfilters :=
          json_dumps (JBool (cfg_transferAllMatchingFilters cfg));
        checklist_children := mkSides left right;
        checklist_value := mkSides None None;
        search_value := mkSides None None;
        transfer_n_clicks := mkSides None None;
        transfer_all_n_clicks := mkSides None None |}.

End TransferList.

(** ** The dispatch of the callbacks

    What the [@callback] declarations ask of Dash: a change of a search text
    runs [filter_checklist] for that side; a click on a transfer or
    transfer-all button runs [transfer_values] with the properties of both
    sides; an output other than [no_update] is written to its property.
    The search texts that a transfer writes make Dash run [filter_checklist]
    once more for each side; that run writes what is already there
    ([search_after_transfer]) and is left out of [dispatch]. *)

Inductive Event : Type :=
  | SearchChanged (s : Side) (text : string)
  | Checked (s : Side) (selection : list string)
  | Transfer (s : Side)
  | TransferAll (s : Side).

Definition apply_out {A B : Type} (f : A → B) (o : Out A) (old : B) : B :=
  match o with
  | no_update => old
  | upd a => f a
  end.

(** An output declared with [ALL] takes one entry per side. *)
Definition apply_all {A B : Type} (f : A → B) (o : Out (list (Out A)))
    (old : Sides B) : result (Sides B) :=
  match o with
  | no_update => Ok old
  | upd [l; r] =>
      Ok (mkSides (apply_out f l (on_left old)) (apply_out f r (on_right old)))
  | upd _ => Raise "InvalidCallbackReturnValue"
  end.

Definition click (n : option nat) : option nat := Some (S (default 0 n)).

Definition set_search (w : Widget) (v : Sides (option string)) : Widget :=
  {| w_aio_id := w_aio_id w; w_titles := w_titles w;
     w_showTransferAll := w_showTransferAll w; main_value := main_value w;
     data_placeholder := data_placeholder w;
     data_nothingfound := data_nothingfound w;
     data_transferallmatchingfilters := data_transferallmatchingfilters w;
     checklist_children := checklist_children w;
     checklist_value := checklist_value w;
     search_value := v;
     transfer_n_clicks := transfer_n_clicks w;
     transfer_all_n_clicks := transfer_all_n_clicks w |}.

Definition set_checklist (w : Widget) (c : Sides Children)
    (v : Sides (option (list string))) : Widget :=
  {| w_aio_id := w_aio_id w; w_titles := w_titles w;
     w_showTransferAll := w_showTransferAll w; main_value := main_value w;
     data_placeholder := data_placeholder w;
     data_nothingfound := data_nothingfound w;
     data_transferallmatchingfilters := data_transferallmatchingfilters w;
     checklist_children := c;
     checklist_value := v;
     search_value := search_value w;
     transfer_n_clicks := transfer_n_clicks w;
     transfer_all_n_clicks := transfer_all_n_clicks w |}.

Definition set_main (w : Widget) (v : list (list Item)) : Widget :=
  {| w_aio_id := w_aio_id w; w_titles := w_titles w;
     w_showTransferAll := w_showTransferAll w; main_value := v;
     data_placeholder := data_placeholder w;
     data_nothingfound := data_nothingfound w;
     data_transferallmatchingfilters := data_transferallmatchingfilters w;
     checklist_children := checklist_children w;
     checklist_value := checklist_value w;
     search_value := search_value w;
     transfer_n_clicks := transfer_n_clicks w;
     transfer_all_n_clicks := transfer_all_n_clicks w |}.

Definition set_clicks (w : Widget) (t a : Sides (option nat)) : Widget :=
  {| w_aio_id := w_aio_id w; w_titles := w_titles w;
     w_showTransferAll := w_showTransferAll w; main_value := main_value w;
     data_placeholder := data_placeholder w;
     data_nothingfound := data_nothingfound w;
     data_transferallmatchingfilters := data_transferallmatchingfilters w;
     checklist_children := checklist_children w;
     checklist_value := checklist_value w;
     search_value := search_value w;
     transfer_n_clicks := t;
     transfer_all_n_clicks := a |}.

(** Writes the outputs of [transfer_values]. *)
Definition apply_patch (w : Widget) (p : Patch) : result Widget :=
  let '(v, c, sel, q) := p in
  c' ← apply_all id c (checklist_children w);
  sel' ← apply_all Some sel (checklist_value w);
  q' ← apply_all Some q (search_value w);
  Ok (set_search
        (set_checklist (set_main w (apply_out id v (main_value w))) c' sel') q').

(** Runs [transfer_values] for a click on the button [part] of side [s]. *)
Definition on_click (w : Widget) (part : string) (s : Side) : result Widget :=
  let trigger2 :=
    if w_showTransferAll w then both (transfer_all_n_clicks w) else [] in
  p ← transfer_values (Some (mkId part (w_aio_id w) (side_name s)))
        (both (transfer_n_clicks w)) trigger2
        (both (checklist_value w)) (both (search_value w)) (main_value w)
        (data_placeholder w) (data_transferallmatchingfilters w);
  apply_patch w p.

(** A click increments the [n_clicks] of its button. *)
Definition clicked (w : Widget) (e : Event) : Widget :=
  match e with
  | Transfer s =>
      set_clicks w
        (set_side s (click (at_side s (transfer_n_clicks w)))
           (transfer_n_clicks w))
        (transfer_all_n_clicks w)
  | TransferAll s =>
      set_clicks w (transfer_n_clicks w)
        (set_side s (click (at_side s (transfer_all_n_clicks w)))
           (transfer_all_n_clicks w))
  | _ => w
  end.

Definition dispatch (w : Widget) (e : Event) : result Widget :=
  match e with
  | SearchChanged s text =>
      let w := set_search w (set_side s (Some text) (search_value w)) in
      '(c, sel) ← filter_checklist
                    (Some (mkId search_part (w_aio_id w) (side_name s)))
                    (Some text) (main_value w) (data_nothingfound w)
                    (data_placeholder w) (at_side s (checklist_value w));
      Ok (set_checklist w
            (set_side s (apply_out id c (at_side s (checklist_children w)))
               (checklist_children w))
            (set_side s (apply_out Some sel (at_side s (checklist_value w)))
               (checklist_value w)))
  | Checked s selection =>
      Ok (set_checklist w (checklist_children w)
            (set_side s (Some selection) (checklist_value w)))
  | Transfer s => on_click (clicked w e) transfer_part s
  | TransferAll s =>
      (* without [showTransferAll] the widget has no such button *)
      if w_showTransferAll w then on_click (clicked w e) transfer_all_part s
      else Ok w
  end.

(** A sequence of stimuli, handled one at a time. *)
Fixpoint run (w : Widget) (es : list Event) : result Widget :=
  match es with
  | [] => Ok w
  | e :: es' => w' ← dispatch w e; run w' es'
  end.

(** The two lists of the value. *)
Definition list_of (w : Widget) (s : Side) : list Item :=
  default [] (main_value w !! side_index (side_name s)).

(** ** Notions of the specification *)

(** [t] is a substring of [s]. *)
Definition is_substring (t s : string) : Prop :=
  ∃ pre post, s = pre +:+ t +:+ post.

(** The items of a widget hold no value on both sides. *)
Definition partitioned (w : Widget) : Prop :=
  (value <$> list_of w Left) ## (value <$> list_of w Right).

(** The values held by the two lists together, left list first. *)
Definition all_values (w : Widget) : list string :=
  (value <$> list_of w Left) ++ (value <$> list_of w Right).

(** What [__init__] establishes and every callback keeps: the value has its
    two lists and the settings are JSON texts. *)
Definition well_formed (w : Widget) : Prop :=
  2 ≤ length (main_value w) ∧
  (∃ v, data_placeholder w = json_dumps v) ∧
  (∃ v, data_nothingfound w = json_dumps v) ∧
  (∃ b, data_transferallmatchingfilters w = json_dumps (JBool b)).

(** The [transferred] list that a click on the button [part] of side [s]
    computes in the state [w]. *)
Definition values_to_transfer (w : Widget) (part : string) (s : Side)
  : result (option (list string)) :=
  transferred_values (mkId part (w_aio_id w) (side_name s))
    (both (checklist_value w)) (both (search_value w)) (main_value w)
    (data_transferallmatchingfilters w).

(** A patch whose outputs are all [no_update]. *)
Definition all_no_update {A : Type} (o : Out (list (Out A))) : bool :=
  match o with
  | no_update => true
  | upd l => forallb (λ x, match x with no_update => true | upd _ => false end) l
  end.

Definition no_field_changes (p : Patch) : bool :=
  let '(v, c, sel, q) := p in
  match v with no_update => true | upd _ => false end
  && all_no_update c && all_no_update sel && all_no_update q.

(** The fields of the state that the specification observes: the two-list
    value, the visible lists, the selections and the search texts. *)
Definition same_fields (w w' : Widget) : Prop :=
  main_value w' = main_value w ∧
  checklist_children w' = checklist_children w ∧
  checklist_value w' = checklist_value w ∧
  search_value w' = search_value w.

(** The transfer of the specification: the items of [source] whose value is
    not in [values] stay, in order; the others are appended to [dest] in
    their order in [source]. *)
Definition transfer_spec (source dest : list Item) (values : list string)
  : list Item * list Item :=
  (filter (λ v, value v ∉ values) source,
   dest ++ filter (λ v, value v ∈ values) source).

(** [new_value] seen from the side that was clicked. *)
Definition by_side {A : Type} (s : Side) (source_dest : A * A) : A * A :=
  match s with
  | Left => source_dest
  | Right => (source_dest.2, source_dest.1)
  end.

(** The state after a click that moves [transferred] from side [s]. *)
Definition after_transfer (w : Widget) (s : Side) (ph : jvalue)
    (transferred : list string) : Widget :=
  let n := by_side s (transfer_spec (list_of w s) (list_of w (other s))
                        transferred) in
  set_search
    (set_checklist (set_main w [n.1; n.2])
       (mkSides (new_children ph n.1) (new_children ph n.2))
       (mkSides (Some []) (Some [])))
    (mkSides (Some EmptyString) (Some EmptyString)).

(** The guard of [transfer_values] on the clicks: some button of the widget
    has been clicked. *)
Definition fired (w : Widget) : bool :=
  any (both (transfer_n_clicks w)) ||
  any (if w_showTransferAll w then both (transfer_all_n_clicks w) else []).

(** The button and the side of a click. *)
Definition button_of (e : Event) : option (string * Side) :=
  match e with
  | Transfer s => Some (transfer_part, s)
  | TransferAll s => Some (transfer_all_part, s)
  | _ => None
  end.

(** The decoded placeholder setting. *)
Definition placeholder_of (w : Widget) : jvalue :=
  match json_loads (data_placeholder w) with
  | Ok v => v
  | Raise _ => JNull
  end.

(** ** Scenarios *)

Definition react : Item := mkItem "react" "React".
Definition ng : Item := mkItem "ng" "Angular".
Definition vue : Item := mkItem "vue" "Vue".
Definition sv : Item := mkItem "sv" "Svelte".
Definition dj : Item := mkItem "dj" "Django".

(** The settings of the demo page, with the given lists and limit. *)
Definition demo (limit : option Z) (left right : list Item) : Config :=
  {| cfg_aio_id := "transferlist";
     cfg_limit := limit;
     cfg_nothingFound := Some "Nothing matches your search";
     cfg_placeholder := Some "No items";
     cfg_showTransferAll := true;
     cfg_titles := Some ["Source"; "Destination"];
     cfg_transferAllMatchingFilters := true;
     cfg_value := Some [left; right] |}.

(** The same with [transferAllMatchingFilters=False]. *)
Definition demo_all (left right : list Item) : Config :=
  {| cfg_aio_id := "transferlist";
     cfg_limit := None;
     cfg_nothingFound := Some "Nothing matches your search";
     cfg_placeholder := Some "No items";
     cfg_showTransferAll := true;
     cfg_titles := Some ["Source"; "Destination"];
     cfg_transferAllMatchingFilters := false;
     cfg_value := Some [left; right] |}.

(** A widget built with the defaults of [__init__]: no texts, no limit. *)
Definition plain (left right : list Item) : Config :=
  {| cfg_aio_id := "transferlist";
     cfg_limit := None;
     cfg_nothingFound := None;
     cfg_placeholder := None;
     cfg_showTransferAll := true;
     cfg_titles := None;
     cfg_transferAllMatchingFilters := true;
     cfg_value := Some [left; right] |}.

(** The widget that [__init__] builds, when it builds one. *)
Definition constructed (cfg : Config) : Widget :=
  match TransferList.__init__ cfg with
  | Ok w => w
  | Raise _ =>
      mkWidget EmptyString [] false [] EmptyString EmptyString EmptyString
        (mkSides NoChildren NoChildren) (mkSides None None)
        (mkSides None None) (mkSides None None) (mkSides None None)
  end.

(** The state reached from [w] by the stimuli [es], when none raises. *)
Definition state_after (w : Widget) (es : list Event) : Widget :=
  match run w es with
  | Ok w' => w'
  | Raise _ => w
  end.

(** ** The ids of the components *)

(** [base_id]: [{"part": part, "aio_id": aio_id}] *)
Definition base_id (part aio_id : string) : gmap string string :=
  <["aio_id" := aio_id]> (<["part" := part]> ∅).

(** [side_id]: [{"part": part, "aio_id": aio_id, "side": side}] *)
Definition side_id (part aio_id side : string) : gmap string string :=
  <["side" := side]> (<["aio_id" := aio_id]> (<["part" := part]> ∅)).

(** [TransferList.ids]: the partial applications of [side_id] and [base_id]. *)
Module ids.

Definition search : string → string → gmap string string :=
  side_id "__trl-search-input".
Definition transfer : string → string → gmap string string :=
  side_id "__trl-transfer-input".
Definition transfer_all : string → string → gmap string string :=
  side_id "__trl-transfer-all-input".
Definition checklist : string → string → gmap string string :=
  side_id "__trl-checklist-input".
Definition main : string → gmap string string :=
  base_id "__trl-main".

End ids.

(** ** The style callbacks of the browser

    The two [clientside_callback]s gray out a button.  A style is a
    JavaScript object; its values are [null], numbers and strings. *)

Inductive css : Type :=
  | CssNull
  | CssNum (n : Z)
  | CssStr (s : string).

(** [{...style, color: on ? null : "gray", cursor: on ? "pointer" : "default"}];
    spreading a style that is [null] adds no key. *)
Definition restyle (on : bool) (style : option (gmap string css))
  : gmap string css :=
  <["cursor" := if on then CssStr "pointer" else CssStr "default"]>
    (<["color" := if on then CssNull else CssStr "gray"]> (default ∅ style)).

(** [(selection, style) => ...] of the transfer button: [on] is
    [!!selection.length], and reading [length] of [null] throws. *)
Definition transfer_style (selection : option (list string))
    (style : option (gmap string css)) : result (gmap string css) :=
  match selection with
  | None => Raise "TypeError"
  | Some sel => Ok (restyle (negb (bool_decide (length sel = 0))) style)
  end.

(** [!filtered || !filtered.length] on the children of a checklist: [null] is
    falsy; an array has its length; a text element is an object without
    [length]. *)
Definition disabled (filtered : Children) : bool :=
  match filtered with
  | NoChildren => true
  | Checkboxes cs => bool_decide (length cs = 0)
  | Text _ => true
  end.

(** [(filtered, style) => ...] of the transfer-all button. *)
Definition transfer_all_style (filtered : Children)
    (style : option (gmap string css)) : gmap string css :=
  restyle (negb (disabled filtered)) style.

(** ** The demo page *)

(** [f'{v["label"]} ({v["value"]})'] *)
Definition display_line (v : Item) : string :=
  label v +:+ " (" +:+ value v +:+ ")".

(** [udpate_display] of [app.py]: the list items of the two columns. *)
Definition udpate_display (values : list (list Item))
  : result (list string * list string) :=
  v0 ← getitem values 0;
  v1 ← getitem values 1;
  Ok (display_line <$> (v0 : list Item), display_line <$> (v1 : list Item)).

(** ** Further notions *)

(** The items held by the two lists together, left list first. *)
Definition all_items (w : Widget) : list Item :=
  list_of w Left ++ list_of w Right.

(** The values of the checkboxes that a checklist shows. *)
Definition rendered_values (c : Children) : list string :=
  match c with
  | Checkboxes cs => cb_value <$> cs
  | _ => []
  end.

(** Every selected value is the value of a checkbox on its side. *)
Definition selection_rendered (w : Widget) : Prop :=
  ∀ s, Forall (λ x, x ∈ rendered_values (at_side s (checklist_children w)))
         (default [] (at_side s (checklist_value w))).

(** A user ticks only checkboxes that are shown. *)
Definition valid_event (w : Widget) (e : Event) : Prop :=
  match e with
  | Checked s selection =>
      Forall (λ x, x ∈ rendered_values (at_side s (checklist_children w)))
        selection
  | _ => True
  end.

(** A sequence of stimuli each of which is valid in the state it meets. *)
Fixpoint valid_run (w : Widget) (es : list Event) : Prop :=
  match es with
  | [] => True
  | e :: es' =>
      valid_event w e ∧
      match dispatch w e with
      | Ok w' => valid_run w' es'
      | Raise _ => False
      end
  end.

(** ** Strings *)

Lemma startswith_spec (t s : string) :
  startswith t s = true ↔ ∃ post, s = t +:+ post.
Proof.
  revert s. induction t as [|a t IH]; intros s; simpl.
  - split; [intros _; by exists s | done].
  - destruct s as [|b s].
    + split; [done | intros [post Hp]; discriminate].
    + rewrite andb_true_iff, bool_decide_eq_true, IH. split.
      * intros [-> [post ->]]. by exists post.
      * intros [post Hp]. injection Hp as -> ->. eauto.
Qed.

Lemma str_in_spec (t s : string) : str_in t s = true ↔ is_substring t s.
Proof.
  unfold is_substring. induction s as [|b s IH]; simpl.
  - rewrite orb_false_r, startswith_spec. split.
    + intros [post Hp]. by exists EmptyString, post.
    + intros [[|c pre] [post Hp]]; [by exists post | discriminate].
  - rewrite orb_true_iff, IH, startswith_spec. split.
    + intros [[post Hp] | (pre & post & ->)].
      * by exists EmptyString, post.
      * by exists (String b pre), post.
    + intros [[|c pre] [post Hp]]; [left; by exists post |].
      injection Hp as -> ->. right. eauto.
Qed.

Global Instance is_substring_dec (t s : string) : Decision (is_substring t s).
Proof.
  refine (cast_if (decide (str_in t s = true))); by rewrite <-str_in_spec.
Defined.

(** The filter of the specification: [items] when [query] is empty, otherwise
    the items whose lower-cased label has the lower-cased [query] as a
    substring, in the order of [items]. *)
Definition Filter_spec (items : list Item) (query : string) : list Item :=
  if decide (query = EmptyString) then items
  else filter (λ v, is_substring (lower query) (lower (label v))) items.

(** ** JSON texts *)

Lemma json_unescape_escape (s : string) :
  json_unescape (json_escape s +:+ String quote EmptyString) = Some s.
Proof.
  induction s as [|c s IH]; [done |]. simpl.
  destruct (bool_decide (c = quote)) eqn:Hq; simpl.
  - rewrite Hq. simpl. by rewrite IH.
  - destruct (bool_decide (c = backslash)) eqn:Hb; simpl.
    + rewrite Hb, orb_true_r. by rewrite IH.
    + rewrite Hq, Hb. by rewrite IH.
Qed.

Lemma json_loads_dumps (v : jvalue) : json_loads (json_dumps v) = Ok v.
Proof.
  destruct v as [|[]|s]; try done.
  unfold json_loads, json_dumps.
  repeat (case_bool_decide; [discriminate |]).
  rewrite bool_decide_eq_true_2 by done.
  by rewrite json_unescape_escape.
Qed.

(** An encoded setting is never the empty text, so it is truthy as a [str]. *)
Lemma json_dumps_truthy (v : jvalue) : truthy_str (Some (json_dumps v)) = true.
Proof. by destruct v as [|[]|s]. Qed.

(** ** The filter *)

Lemma filter_all {A : Type} (P : A → Prop) `{!∀ x, Decision (P x)} (l : list A) :
  (∀ x, x ∈ l → P x) → filter P l = l.
Proof.
  induction l as [|x l IH]; intros HP; [done |].
  rewrite filter_cons_True by (apply HP; left).
  f_equal. apply IH. intros y Hy. apply HP. by right.
Qed.

Lemma matches_unset (search : option string) (v : Item) :
  truthy_str search = false → matches search v = true.
Proof. intros H. unfold matches. by rewrite H. Qed.

Lemma matches_set (q : string) (v : Item) :
  q ≠ EmptyString →
  matches (Some q) v = true ↔ is_substring (lower q) (lower (label v)).
Proof.
  intros Hq. unfold matches, truthy_str.
  rewrite bool_decide_eq_false_2 by done. simpl. apply str_in_spec.
Qed.

Lemma filtered_items_unset (search : option string) (items : list Item) :
  truthy_str search = false → filtered_items search items = items.
Proof.
  intros H. apply filter_all. intros v _.
  apply Is_true_true. by apply matches_unset.
Qed.

(** C7: for every list of items and every query, the comprehension of
    [filter_checklist] and [transfer_values] computes the filter of the
    specification: the items unchanged for the empty query (and for a search
    text that is [None]), otherwise exactly the items, in order, whose
    lower-cased label contains the lower-cased query. *)
Theorem filtered_items_spec (items : list Item) (query : string) :
  filtered_items (Some query) items = Filter_spec items query ∧
  filtered_items None items = items.
Proof.
  split; [| by apply filtered_items_unset].
  unfold Filter_spec. destruct (decide (query = EmptyString)) as [-> | Hq].
  - by apply filtered_items_unset.
  - apply list_filter_iff. intros v.
    rewrite Is_true_true. by apply matches_set.
Qed.

(** The result of the filter is a subsequence of its input. *)
Lemma filtered_items_sublist (search : option string) (items : list Item) :
  filtered_items search items `sublist_of` items.
Proof. apply sublist_filter. Qed.

(** ** The selection *)

(** C8: for every selection and every sequence of visible items, the
    selection that [filter_checklist] returns holds exactly the values that
    are both selected and visible, so each of them is a visible value. *)
Theorem updated_selection_spec (selection : option (list string))
    (visible : list Item) :
  list_to_set (updated_selection selection (value <$> visible)) =@{gset string}
    list_to_set (default [] selection) ∩ list_to_set (value <$> visible) ∧
  Forall (λ x, x ∈ value <$> visible)
    (updated_selection selection (value <$> visible)).
Proof.
  split.
  - apply set_eq. intros x.
    rewrite elem_of_intersection, !elem_of_list_to_set.
    unfold updated_selection. rewrite list_elem_of_filter. tauto.
  - apply Forall_forall. intros x.
    unfold updated_selection. rewrite list_elem_of_filter. tauto.
Qed.

(** ** The transfer *)

Lemma two_lists (w : Widget) :
  2 ≤ length (main_value w) → ∃ l r rest, main_value w = l :: r :: rest.
Proof.
  destruct (main_value w) as [|l [|r rest]]; simpl; intros H; try lia. eauto.
Qed.

Lemma list_of_two (w : Widget) (l r : list Item) (rest : list (list Item)) (s : Side) :
  main_value w = l :: r :: rest →
  list_of w s = (by_side s (l, r)).1 ∧ list_of w (other s) = (by_side s (l, r)).2.
Proof. intros H. unfold list_of. rewrite H. by destruct s. Qed.

Lemma new_value_spec (s : Side) (l r : list Item) (rest : list (list Item))
    (transferred : list string) :
  new_value (side_name s) (l :: r :: rest) transferred =
  Ok (by_side s (transfer_spec (by_side s (l, r)).1 (by_side s (l, r)).2
                   transferred)).
Proof. by destruct s. Qed.

Lemma apply_patch_no_update (w : Widget) :
  apply_patch w (no_update, upd [no_update; no_update],
                 upd [no_update; no_update], upd [no_update; no_update]) = Ok w
  ∧ apply_patch w (no_update, no_update, no_update, no_update) = Ok w.
Proof. by destruct w as [? ? ? ? ? ? ? [] [] [] [] []]. Qed.

Lemma on_click_noop (w : Widget) (part : string) (s : Side)
    (t : option (list string)) :
  values_to_transfer w part s = Ok t →
  truthy_list t = false →
  on_click w part s = Ok w ∧
  ∃ p, transfer_values (Some (mkId part (w_aio_id w) (side_name s)))
         (both (transfer_n_clicks w))
         (if w_showTransferAll w then both (transfer_all_n_clicks w) else [])
         (both (checklist_value w)) (both (search_value w)) (main_value w)
         (data_placeholder w) (data_transferallmatchingfilters w) = Ok p ∧
       no_field_changes p = true.
Proof.
  intros Hv Ht. unfold values_to_transfer in Hv.
  unfold on_click, transfer_values.
  destruct (any _ || any _).
  - rewrite Hv. simpl. rewrite Ht. simpl. split.
    + apply apply_patch_no_update.
    + eauto.
  - simpl. split; [apply apply_patch_no_update | eauto].
Qed.

Lemma on_click_moves (w : Widget) (part : string) (s : Side) (ph : jvalue)
    (t : list string) :
  2 ≤ length (main_value w) →
  data_placeholder w = json_dumps ph →
  fired w = true →
  values_to_transfer w part s = Ok (Some t) →
  t ≠ [] →
  on_click w part s = Ok (after_transfer w s ph t).
Proof.
  intros (l & r & rest & Hm)%two_lists Hph Hf Hv Ht.
  unfold values_to_transfer in Hv. unfold fired in Hf.
  unfold on_click, transfer_values. rewrite Hf, Hv. simpl.
  destruct t as [|x t]; [done |]. simpl.
  rewrite Hm, new_value_spec, Hph. simpl. rewrite json_loads_dumps. simpl.
  unfold after_transfer.
  destruct (list_of_two w l r rest s Hm) as [-> ->].
  by destruct w as [? ? ? ? ? ? ? [] [] [] [] []], s.
Qed.

(** ** The search callback on encoded settings *)

(** With the settings that [__init__] stores, [filter_checklist] returns the
    checkboxes of the filtered items, or, when there is none, a text whose
    content is the decoded [nothingFound] (search text set) or [placeholder]
    (search text unset); the selection is the reconciled one. *)
Lemma filter_checklist_ok (tid : TriggeredId) (search : option string)
    (values : list (list Item)) (nf ph : jvalue)
    (selection : option (list string)) (items : list Item) :
  getitem values (side_index (side tid)) = Ok items →
  filter_checklist (Some tid) search values (json_dumps nf) (json_dumps ph)
    selection =
  Ok (upd (match filtered_items search items with
           | [] => Text (if truthy_str search then nf else ph)
           | f => Checkboxes (checkbox <$> f)
           end),
      upd (updated_selection selection (value <$> filtered_items search items))).
Proof.
  intros Hi. unfold filter_checklist.
  rewrite Hi, !json_dumps_truthy, !andb_true_r. cbn [mbind result_bind].
  destruct (filtered_items search items) as [|v f]; [| done].
  cbn [truthy_list].
  destruct (truthy_str search); cbn [negb]; by rewrite json_loads_dumps.
Qed.

Lemma getitem_side {A : Type} (p : Sides A) (s : Side) :
  getitem (both p) (side_index (side_name s)) = Ok (at_side s p).
Proof. by destruct s. Qed.

Lemma getitem_main (w : Widget) (s : Side) :
  2 ≤ length (main_value w) →
  getitem (main_value w) (side_index (side_name s)) = Ok (list_of w s).
Proof.
  intros (l & r & rest & Hm)%two_lists. unfold list_of. rewrite Hm.
  by destruct s.
Qed.

(** ** The values a click transfers *)

Lemma values_to_transfer_one (w : Widget) (s : Side) :
  values_to_transfer w transfer_part s = Ok (at_side s (checklist_value w)).
Proof.
  unfold values_to_transfer, transferred_values. simpl.
  apply getitem_side.
Qed.

Lemma values_to_transfer_all (w : Widget) (s : Side) (b : bool) :
  2 ≤ length (main_value w) →
  data_transferallmatchingfilters w = json_dumps (JBool b) →
  values_to_transfer w transfer_all_part s =
  Ok (Some (value <$> (if b
                       then filtered_items (at_side s (search_value w))
                              (list_of w s)
                       else list_of w s))).
Proof.
  intros Hm Hb. unfold values_to_transfer, transferred_values. simpl.
  rewrite Hb, json_loads_dumps. simpl.
  rewrite getitem_side, (getitem_main w s Hm). by destruct b.
Qed.

Lemma values_to_transfer_ok (w : Widget) (button : string) (s : Side) :
  well_formed w → ∃ t, values_to_transfer w button s = Ok t.
Proof.
  intros (Hm & _ & _ & b & Hb).
  unfold values_to_transfer, transferred_values. cbn [side part]. cbv zeta.
  destruct (bool_decide _).
  - rewrite getitem_side. eauto.
  - rewrite Hb, json_loads_dumps. cbn [mbind result_bind truthy_json].
    rewrite getitem_side, (getitem_main w s Hm). destruct b; simpl; eauto.
Qed.

(** ** The state after a transfer *)

Lemma after_transfer_lists (w : Widget) (s : Side) (ph : jvalue)
    (t : list string) :
  list_of (after_transfer w s ph t) s =
    (transfer_spec (list_of w s) (list_of w (other s)) t).1 ∧
  list_of (after_transfer w s ph t) (other s) =
    (transfer_spec (list_of w s) (list_of w (other s)) t).2.
Proof. by destruct s. Qed.

Lemma transfer_spec_values (source dest : list Item) (t : list string) :
  (value <$> (transfer_spec source dest t).1) ++
  (value <$> (transfer_spec source dest t).2)
  ≡ₚ (value <$> source) ++ (value <$> dest).
Proof.
  unfold transfer_spec. simpl. rewrite <-!fmap_app. apply fmap_Permutation.
  rewrite (Permutation_app_comm dest), app_assoc.
  apply Permutation_app_tail.
  rewrite (Permutation_app_comm (filter _ source)).
  apply (filter_app_complement (λ v, value v ∈ t)).
Qed.

Lemma transfer_spec_disjoint (source dest : list Item) (t : list string) :
  (value <$> source) ## (value <$> dest) →
  (value <$> (transfer_spec source dest t).1) ##
  (value <$> (transfer_spec source dest t).2).
Proof.
  intros Hd x. unfold transfer_spec. simpl.
  rewrite fmap_app, elem_of_app, !list_elem_of_fmap.
  intros (v & -> & [Hv Hs]%list_elem_of_filter) [(v' & Hx & Hv') | (v' & Hx & [Ht _]%list_elem_of_filter)].
  - apply (Hd (value v)); apply list_elem_of_fmap; eauto.
  - apply Hv. by rewrite Hx.
Qed.

Lemma after_transfer_values (w : Widget) (s : Side) (ph : jvalue)
    (t : list string) :
  all_values (after_transfer w s ph t) ≡ₚ all_values w.
Proof.
  unfold all_values.
  destruct (after_transfer_lists w s ph t) as [Hs Ho].
  destruct s; simpl in Hs, Ho; rewrite Hs, Ho.
  - apply transfer_spec_values.
  - etrans; [apply Permutation_app_comm |].
    etrans; [apply transfer_spec_values | apply Permutation_app_comm].
Qed.

Lemma after_transfer_partitioned (w : Widget) (s : Side) (ph : jvalue)
    (t : list string) :
  partitioned w → partitioned (after_transfer w s ph t).
Proof.
  unfold partitioned.
  destruct (after_transfer_lists w s ph t) as [Hs Ho].
  destruct s; simpl in Hs, Ho; rewrite Hs, Ho; intros Hd.
  - by apply transfer_spec_disjoint.
  - intros x Hl Hr.
    apply (transfer_spec_disjoint (list_of w Right) (list_of w Left) t)
      with x; [| done | done].
    intros y Hy1 Hy2. by apply (Hd y).
Qed.

Lemma after_transfer_well_formed (w : Widget) (s : Side) (ph : jvalue)
    (t : list string) :
  well_formed w → well_formed (after_transfer w s ph t).
Proof. intros (_ & ? & ? & ?). split; [simpl; lia | done]. Qed.

(** ** One stimulus *)

Lemma placeholder_of_dumps (w : Widget) (ph : jvalue) :
  data_placeholder w = json_dumps ph → placeholder_of w = ph.
Proof. intros H. unfold placeholder_of. by rewrite H, json_loads_dumps. Qed.

Lemma fired_clicked (w : Widget) (e : Event) (button : string) (s : Side) :
  button_of e = Some (button, s) →
  w_showTransferAll w = true ∨ button = transfer_part →
  fired (clicked w e) = true.
Proof.
  unfold fired. destruct e as [| |s'|s']; intros [= <- ->] Hb.
  - destruct s; simpl; by rewrite ?orb_true_r.
  - destruct Hb as [Hb | Hb]; [| discriminate Hb].
    destruct s; simpl; rewrite Hb; simpl; by rewrite ?orb_true_r.
Qed.

(** A click whose button exists either changes no field or moves the
    transferred values. *)
Lemma dispatch_click (w : Widget) (e : Event) (button : string) (s : Side)
    (t : option (list string)) :
  button_of e = Some (button, s) →
  well_formed w →
  w_showTransferAll w = true ∨ button = transfer_part →
  values_to_transfer w button s = Ok t →
  dispatch w e =
  Ok (if truthy_list t
      then after_transfer (clicked w e) s (placeholder_of w) (default [] t)
      else clicked w e).
Proof.
  intros He (Hm & [ph Hph] & _) Hb Ht.
  assert (dispatch w e = on_click (clicked w e) button s) as ->.
  { destruct e as [| |s'|s']; try discriminate He;
      injection He as <- ->; [done |].
    destruct Hb as [Hb | Hb]; [| discriminate Hb]. simpl. by rewrite Hb. }
  assert (values_to_transfer (clicked w e) button s = Ok t) as Ht'.
  { by destruct e. }
  destruct (truthy_list t) eqn:Htr.
  - destruct t as [[|x t] |]; try done.
    rewrite (placeholder_of_dumps w ph Hph).
    apply on_click_moves; try done.
    + by destruct e.
    + by destruct e.
    + by apply (fired_clicked w e button s).
  - by apply (on_click_noop _ _ _ t).
Qed.

Lemma clicked_fields (w : Widget) (e : Event) :
  same_fields w (clicked w e) ∧
  (well_formed w → well_formed (clicked w e)) ∧
  all_values (clicked w e) = all_values w ∧
  (partitioned w → partitioned (clicked w e)).
Proof. by destruct e. Qed.

Lemma dispatch_search (w : Widget) (s : Side) (text : string) :
  well_formed w →
  ∃ c, dispatch w (SearchChanged s text) =
       Ok (set_checklist
             (set_search w (set_side s (Some text) (search_value w)))
             (set_side s c (checklist_children w))
             (set_side s
                (Some (updated_selection (at_side s (checklist_value w))
                         (value <$> filtered_items (Some text) (list_of w s))))
                (checklist_value w))) ∧
       c = match filtered_items (Some text) (list_of w s) with
           | [] => Text (if truthy_str (Some text)
                         then match json_loads (data_nothingfound w) with
                              | Ok v => v
                              | Raise _ => JNull
                              end
                         else placeholder_of w)
           | f => Checkboxes (checkbox <$> f)
           end.
Proof.
  intros (Hm & [ph Hph] & [nf Hnf] & _).
  eexists. split; [| reflexivity].
  unfold dispatch. cbn [main_value set_search data_nothingfound
    data_placeholder checklist_value checklist_children w_aio_id].
  rewrite Hnf, Hph.
  rewrite (filter_checklist_ok _ _ _ _ _ _ (list_of w s))
    by (cbn [side]; by apply getitem_main).
  rewrite (placeholder_of_dumps w ph Hph), json_loads_dumps.
  reflexivity.
Qed.

(** Every stimulus is handled without an exception and keeps the values of
    the two lists, as a multiset and as a partition. *)
Lemma dispatch_step (w : Widget) (e : Event) :
  well_formed w →
  ∃ w', dispatch w e = Ok w' ∧ well_formed w' ∧
        all_values w' ≡ₚ all_values w ∧
        (partitioned w → partitioned w').
Proof.
  intros Hw.
  assert (∀ button s, button_of e = Some (button, s) →
            w_showTransferAll w = true ∨ button = transfer_part →
            ∃ w', dispatch w e = Ok w' ∧ well_formed w' ∧
                  all_values w' ≡ₚ all_values w ∧
                  (partitioned w → partitioned w')) as Hclick.
  { intros button s He Hb.
    destruct (values_to_transfer_ok w button s Hw) as [t Ht].
    rewrite (dispatch_click w e button s t He Hw Hb Ht).
    destruct (clicked_fields w e) as (_ & Hwf & Hv & Hp).
    eexists. split; [done |]. destruct (truthy_list t).
    - split; [by apply after_transfer_well_formed, Hwf |].
      split; [by rewrite after_transfer_values, Hv |].
      intros H. by apply after_transfer_partitioned, Hp.
    - by rewrite Hv; auto. }
  destruct e as [s text|s sel|s|s].
  - destruct (dispatch_search w s text Hw) as (c & -> & _).
    eexists. split; [done |]. by destruct Hw as (? & ? & ? & ?).
  - eexists. split; [done |]. by destruct Hw as (? & ? & ? & ?).
  - apply (Hclick transfer_part s); auto.
  - destruct (w_showTransferAll w) eqn:Hs.
    + apply (Hclick transfer_all_part s); auto.
    + exists w. simpl. by rewrite Hs.
Qed.

Lemma run_steps (w : Widget) (es : list Event) :
  well_formed w →
  ∃ w', run w es = Ok w' ∧ well_formed w' ∧
        all_values w' ≡ₚ all_values w ∧
        (partitioned w → partitioned w').
Proof.
  revert w. induction es as [|e es IH]; intros w Hw.
  - exists w. by simpl.
  - destruct (dispatch_step w e Hw) as (w1 & He & Hw1 & Hv1 & Hp1).
    destruct (IH w1 Hw1) as (w2 & Hr & Hw2 & Hv2 & Hp2).
    exists w2. simpl. rewrite He. simpl.
    split; [done |]. split; [done |]. split; [by rewrite Hv2 | auto].
Qed.

(** ** The constructor *)

Lemma init_ok (cfg : Config) (w : Widget) :
  TransferList.__init__ cfg = Ok w →
  ∃ l r rest, cfg_value cfg = Some (l :: r :: rest) ∧
    main_value w = l :: r :: rest ∧
    checklist_children w =
      mkSides (TransferList.checklist l (cfg_limit cfg))
        (TransferList.checklist r (cfg_limit cfg)) ∧
    data_placeholder w = json_dumps (json_of_str (cfg_placeholder cfg)) ∧
    data_nothingfound w = json_dumps (json_of_str (cfg_nothingFound cfg)) ∧
    data_transferallmatchingfilters w =
      json_dumps (JBool (cfg_transferAllMatchingFilters cfg)).
Proof.
  unfold TransferList.__init__.
  destruct (TransferList.title (cfg_titles cfg) 0) as [t0|]; [| done].
  cbn [mbind result_bind].
  destruct (cfg_value cfg) as [[|l [|r rest]]|]; try done;
    cbn [mbind result_bind getitem_opt getitem lookup list_lookup];
    destruct (TransferList.title (cfg_titles cfg) 1) as [t1|]; try done.
  cbn [mbind result_bind]. intros [= <-]. by exists l, r, rest.
Qed.

Lemma init_well_formed (cfg : Config) (w : Widget) :
  TransferList.__init__ cfg = Ok w → well_formed w.
Proof.
  intros (l & r & rest & _ & Hm & _ & Hp & Hn & Ht)%init_ok.
  split; [rewrite Hm; simpl; lia |]. split; [eauto |]. split; eauto.
Qed.

(** ** The partition invariant *)

Lemma partitioned_check (w : Widget) :
  Forall (λ x, x ∉ value <$> list_of w Right) (value <$> list_of w Left) →
  partitioned w.
Proof. intros H x Hl Hr. by apply (proj1 (Forall_forall _ _) H x). Qed.

Lemma all_values_length (w : Widget) :
  length (all_values w) = length (list_of w Left) + length (list_of w Right).
Proof. unfold all_values. by rewrite length_app, !length_fmap. Qed.

(** C1: from a widget that [__init__] built with no value on both sides,
    every sequence of stimuli is handled without an exception and leaves the
    multiset of the values of the two lists unchanged, hence also the sum of
    their lengths, and no value on both sides. *)
Theorem partition_invariant (cfg : Config) (w : Widget) (es : list Event) :
  TransferList.__init__ cfg = Ok w →
  partitioned w →
  ∃ w', run w es = Ok w' ∧
        all_values w' ≡ₚ all_values w ∧
        length (list_of w' Left) + length (list_of w' Right) =
          length (list_of w Left) + length (list_of w Right) ∧
        partitioned w'.
Proof.
  intros Hw%init_well_formed Hp.
  destruct (run_steps w es Hw) as (w' & Hr & _ & Hv & Hp').
  exists w'. split; [done |]. split; [done |]. split; [| auto].
  by rewrite <-!all_values_length, Hv.
Qed.

Lemma partition_invariant_witness :
  ∃ w', run (constructed (demo None [react; ng; vue] [sv; dj]))
          [SearchChanged Left "a"; Checked Left ["ng"]; Transfer Left;
           TransferAll Right; Checked Left ["sv"; "react"]; Transfer Left] = Ok w' ∧
        all_values w' ≡ₚ
          all_values (constructed (demo None [react; ng; vue] [sv; dj])) ∧
        length (list_of w' Left) + length (list_of w' Right) =
          length (list_of (constructed (demo None [react; ng; vue] [sv; dj])) Left) +
          length (list_of (constructed (demo None [react; ng; vue] [sv; dj])) Right) ∧
        partitioned w'.
Proof.
  apply (partition_invariant (demo None [react; ng; vue] [sv; dj])).
  - reflexivity.
  - apply partitioned_check. by apply (bool_decide_unpack _).
Defined.

(** ** Transfers and the search texts *)

(** C2 fails on the code: a transfer-one click with a selection resets both
    search texts.  After the search "re", selecting "react" and clicking the
    left transfer button leaves the left search text empty. *)
Lemma transfer_one_resets_search :
  ∃ w w',
    run (constructed (demo None [react; ng] []))
      [SearchChanged Left "re"; Checked Left ["react"]] = Ok w ∧
    at_side Left (checklist_value w) = Some ["react"] ∧
    search_value w = mkSides (Some "re") None ∧
    dispatch w (Transfer Left) = Ok w' ∧
    search_value w' = mkSides (Some EmptyString) (Some EmptyString) ∧
    search_value w' ≠ search_value w.
Proof. do 2 eexists. by repeat split. Qed.

(** C2, amended: for every state and every non-empty selection on side [s],
    a transfer-one click sets both search texts to the empty text and both
    selections to the empty selection, as a transfer-all click that moves
    something does. *)
Theorem transfer_clears_search (w : Widget) (e : Event) (button : string)
    (s : Side) (t : list string) :
  well_formed w →
  button_of e = Some (button, s) →
  w_showTransferAll w = true ∨ button = transfer_part →
  values_to_transfer w button s = Ok (Some t) →
  t ≠ [] →
  ∃ w', dispatch w e = Ok w' ∧
        search_value w' = mkSides (Some EmptyString) (Some EmptyString) ∧
        checklist_value w' = mkSides (Some []) (Some []).
Proof.
  intros Hw He Hb Ht Hne.
  rewrite (dispatch_click w e button s (Some t) He Hw Hb Ht).
  destruct t as [|x t]; [done |]. by eexists.
Qed.

Lemma transfer_clears_search_witness :
  ∃ w', dispatch
          (state_after (constructed (demo None [react; ng] []))
             [SearchChanged Left "re"; Checked Left ["react"]])
          (Transfer Left) = Ok w' ∧
        search_value w' = mkSides (Some EmptyString) (Some EmptyString) ∧
        checklist_value w' = mkSides (Some []) (Some []).
Proof.
  apply (transfer_clears_search _ (Transfer Left) transfer_part Left ["react"]).
  - split; [vm_compute; lia |].
    split; [by exists (JStr "No items") |].
    split; [by exists (JStr "Nothing matches your search") | by exists true].
  - reflexivity.
  - by right.
  - reflexivity.
  - discriminate.
Defined.

(** ** The transfer engine *)

(** C3: when a click on a button of side [s] fires [transfer_values] with a
    non-empty list [t] of values to move, the new value holds, for the source
    [s], the source items whose value is not in [t], in order, and for the
    destination, the destination items followed by the source items whose
    value is in [t], in their order in the source. *)
Theorem transfer_values_moves (s : Side) (tid : TriggeredId)
    (trigger1 trigger2 : list (option nat))
    (selection : list (option (list string))) (search : list (option string))
    (l r : list Item) (placeholder transfer_matching : string)
    (t : list string) (ph : jvalue) :
  side tid = side_name s →
  any trigger1 || any trigger2 = true →
  transferred_values tid selection search [l; r] transfer_matching
    = Ok (Some t) →
  t ≠ [] →
  json_loads placeholder = Ok ph →
  ∃ newSource newDest c sel q,
    transfer_values (Some tid) trigger1 trigger2 selection search [l; r]
      placeholder transfer_matching =
    Ok (upd [(by_side s (newSource, newDest)).1;
             (by_side s (newSource, newDest)).2], c, sel, q) ∧
    newSource = filter (λ v, value v ∉ t) (by_side s (l, r)).1 ∧
    newDest = (by_side s (l, r)).2 ++
              filter (λ v, value v ∈ t) (by_side s (l, r)).1.
Proof.
  intros Hs Hf Ht Hne Hph.
  unfold transfer_values. rewrite Hf, Ht. cbn [mbind result_bind].
  destruct t as [|x t]; [done |]. cbn [truthy_list negb default].
  rewrite Hs, new_value_spec. cbn [mbind result_bind].
  rewrite Hph. cbn [mbind result_bind].
  destruct s; do 5 eexists; (split; [reflexivity | split; reflexivity]).
Qed.

Lemma transfer_values_moves_witness :
  ∃ newSource newDest c sel q,
    transfer_values (Some (mkId transfer_part "transferlist" "right"))
      [None; Some 1] [None; None] [None; Some ["dj"; "sv"]] [None; None]
      [[react]; [sv; ng; dj]] (json_dumps JNull) (json_dumps (JBool true)) =
    Ok (upd [(by_side Right (newSource, newDest)).1;
             (by_side Right (newSource, newDest)).2], c, sel, q) ∧
    newSource = filter (λ v, value v ∉ ["dj"; "sv"])
                  (by_side Right ([react], [sv; ng; dj])).1 ∧
    newDest = (by_side Right ([react], [sv; ng; dj])).2 ++
              filter (λ v, value v ∈ ["dj"; "sv"])
                (by_side Right ([react], [sv; ng; dj])).1.
Proof.
  apply (transfer_values_moves Right _ _ _ _ _ _ _ _ _ _ JNull);
    solve [reflexivity | discriminate].
Defined.

(** What the transfer of Scenario A computes. *)
Example scenario_A :
  dispatch (state_after (constructed (demo None [react; ng] []))
              [Checked Left ["react"]]) (Transfer Left) =
  Ok (after_transfer
        (clicked (state_after (constructed (demo None [react; ng] []))
                    [Checked Left ["react"]]) (Transfer Left))
        Left (JStr "No items") ["react"]) ∧
  main_value (after_transfer
        (clicked (state_after (constructed (demo None [react; ng] []))
                    [Checked Left ["react"]]) (Transfer Left))
        Left (JStr "No items") ["react"]) = [[ng]; [react]].
Proof. by split. Qed.

(** Scenario B: the search "an" shows Angular only. *)
Example scenario_B :
  filtered_items (Some "an") [react; ng; vue] = [ng] ∧
  checklist_children
    (state_after (constructed (demo None [react; ng; vue] []))
       [SearchChanged Left "an"]) =
  mkSides (Checkboxes [checkbox ng]) (Checkboxes []).
Proof. by split. Qed.

(** Scenario C: transfer-all under the search "re" moves React only and
    empties both search texts. *)
Example scenario_C :
  values_to_transfer
    (state_after (constructed (demo None [react; ng] []))
       [SearchChanged Left "re"]) transfer_all_part Left = Ok (Some ["react"]) ∧
  ∃ w', run (constructed (demo None [react; ng] []))
          [SearchChanged Left "re"; TransferAll Left] = Ok w' ∧
        main_value w' = [[ng]; [react]] ∧
        search_value w' = mkSides (Some EmptyString) (Some EmptyString).
Proof. split; [done |]. by eexists. Qed.

(** Scenario D: without [transferAllMatchingFilters] the whole list moves and
    the emptied side shows the placeholder. *)
Example scenario_D :
  values_to_transfer
    (state_after (constructed (demo_all [react; ng] []))
       [SearchChanged Left "re"]) transfer_all_part Left
    = Ok (Some ["react"; "ng"]) ∧
  ∃ w', run (constructed (demo_all [react; ng] []))
          [SearchChanged Left "re"; TransferAll Left] = Ok w' ∧
        main_value w' = [[]; [react; ng]] ∧
        on_left (checklist_children w') = Text (JStr "No items").
Proof. split; [done |]. by eexists. Qed.

(** ** Construction *)

(** C4 fails on the code: constructing with the same item on both sides
    succeeds, the value is stored as given and holds the value "a" twice. *)
Lemma init_accepts_duplicate :
  TransferList.__init__ (plain [mkItem "a" "A"] [mkItem "a" "A"])
    ≠ Raise "DuplicateValueError" ∧
  ∃ w, TransferList.__init__ (plain [mkItem "a" "A"] [mkItem "a" "A"]) = Ok w ∧
       main_value w = [[mkItem "a" "A"]; [mkItem "a" "A"]] ∧
       ¬ partitioned w.
Proof.
  split; [done |]. eexists. split; [reflexivity |]. split; [done |].
  intros H. apply (H "a"); by left.
Qed.

(** C4, amended: [__init__] does not compare the two initial lists and never
    fails with [DuplicateValueError]: it raises [TypeError] for a value that
    is [None], [IndexError] for a value with fewer than two lists or for a
    single title, and otherwise builds the widget around the value as given,
    whether or not a value occurs in both lists. *)
Theorem init_no_validation (cfg : Config) :
  TransferList.__init__ cfg ≠ Raise "DuplicateValueError" ∧
  match cfg_value cfg with
  | None => TransferList.__init__ cfg = Raise "TypeError"
  | Some v =>
      if bool_decide (2 ≤ length v) &&
         (negb (truthy_list (cfg_titles cfg)) ||
          bool_decide (2 ≤ length (default [] (cfg_titles cfg))))
      then ∃ w, TransferList.__init__ cfg = Ok w ∧ main_value w = v
      else TransferList.__init__ cfg = Raise "IndexError"
  end.
Proof.
  unfold TransferList.__init__, TransferList.title.
  destruct (cfg_titles cfg) as [[|t0 [|t1 ts]]|],
    (cfg_value cfg) as [[|l [|r rest]]|];
    split; try done; simpl; by eexists.
Qed.

(** ** Clicks that transfer nothing *)

(** C5: when the list of values to transfer is empty (or [None]),
    [transfer_values] returns outputs that are all [no_update], and the click
    leaves the two-list value, the visible lists, the selections and the
    search texts as they were. *)
Theorem transfer_nothing (w : Widget) (e : Event) (button : string) (s : Side)
    (t : option (list string)) :
  button_of e = Some (button, s) →
  values_to_transfer w button s = Ok t →
  truthy_list t = false →
  (∃ p, transfer_values
          (Some (mkId button (w_aio_id w) (side_name s)))
          (both (transfer_n_clicks (clicked w e)))
          (if w_showTransferAll w
           then both (transfer_all_n_clicks (clicked w e)) else [])
          (both (checklist_value w)) (both (search_value w)) (main_value w)
          (data_placeholder w) (data_transferallmatchingfilters w) = Ok p ∧
        no_field_changes p = true) ∧
  ∃ w', dispatch w e = Ok w' ∧ same_fields w w'.
Proof.
  intros He Ht Hf.
  assert (values_to_transfer (clicked w e) button s = Ok t) as Ht'
    by (by destruct e).
  destruct (on_click_noop (clicked w e) button s t Ht' Hf) as [Hc Hp].
  split; [by destruct e |].
  destruct e as [| |s'|s']; try discriminate He; injection He as <- ->.
  - exists (clicked w (Transfer s)). by split.
  - simpl. destruct (w_showTransferAll w).
    + exists (clicked w (TransferAll s)). by split.
    + by exists w.
Qed.

Lemma transfer_nothing_witness :
  (∃ p, transfer_values
          (Some (mkId transfer_all_part "transferlist" "left"))
          [None; None] [Some 1; None] [Some []; None] [Some "zz"; None]
          [[react; ng]; []] (json_dumps (JStr "No items"))
          (json_dumps (JBool true)) = Ok p ∧
        no_field_changes p = true) ∧
  ∃ w', dispatch
          (state_after (constructed (demo None [react; ng] []))
             [SearchChanged Left "zz"])
          (TransferAll Left) = Ok w' ∧
        same_fields
          (state_after (constructed (demo None [react; ng] []))
             [SearchChanged Left "zz"]) w'.
Proof.
  apply (transfer_nothing
           (state_after (constructed (demo None [react; ng] []))
              [SearchChanged Left "zz"])
           (TransferAll Left) transfer_all_part Left (Some []));
    reflexivity.
Defined.

(** ** Missing selections *)

(** C10: a selection that is [None] raises no exception: [filter_checklist]
    reads it as the empty selection and a search change returns the empty
    selection; a transfer-one click on a side whose selection is [None]
    returns outputs that are all [no_update] and changes no field. *)
Theorem none_selection_safe (w : Widget) (s : Side) (text : string) :
  well_formed w →
  at_side s (checklist_value w) = None →
  (∀ tid search values nothing_found placeholder,
     filter_checklist tid search values nothing_found placeholder None =
     filter_checklist tid search values nothing_found placeholder (Some [])) ∧
  (∃ w', dispatch w (SearchChanged s text) = Ok w' ∧
         at_side s (checklist_value w') = Some []) ∧
  (∃ p, transfer_values
          (Some (mkId transfer_part (w_aio_id w) (side_name s)))
          (both (transfer_n_clicks (clicked w (Transfer s))))
          (if w_showTransferAll w
           then both (transfer_all_n_clicks (clicked w (Transfer s))) else [])
          (both (checklist_value w)) (both (search_value w)) (main_value w)
          (data_placeholder w) (data_transferallmatchingfilters w) = Ok p ∧
        no_field_changes p = true) ∧
  ∃ w', dispatch w (Transfer s) = Ok w' ∧ same_fields w w'.
Proof.
  intros Hw Hsel. split; [done |]. split.
  - destruct (dispatch_search w s text Hw) as (c & -> & _).
    eexists. split; [done |]. rewrite Hsel. by destruct s.
  - assert (values_to_transfer (clicked w (Transfer s)) transfer_part s
            = Ok None) as Ht
      by (rewrite values_to_transfer_one; simpl; by rewrite Hsel).
    destruct (on_click_noop _ _ _ None Ht eq_refl) as [Hc Hp].
    split; [exact Hp |]. by exists (clicked w (Transfer s)).
Qed.

Lemma none_selection_safe_witness :
  (∀ tid search values nothing_found placeholder,
     filter_checklist tid search values nothing_found placeholder None =
     filter_checklist tid search values nothing_found placeholder (Some [])) ∧
  (∃ w', dispatch (constructed (demo None [react; ng] [sv]))
           (SearchChanged Right "s") = Ok w' ∧
         at_side Right (checklist_value w') = Some []) ∧
  (∃ p, transfer_values
          (Some (mkId transfer_part "transferlist" "right"))
          [None; Some 1] [None; None] [None; None] [None; None]
          [[react; ng]; [sv]] (json_dumps (JStr "No items"))
          (json_dumps (JBool true)) = Ok p ∧
        no_field_changes p = true) ∧
  ∃ w', dispatch (constructed (demo None [react; ng] [sv])) (Transfer Right)
        = Ok w' ∧
        same_fields (constructed (demo None [react; ng] [sv])) w'.
Proof.
  apply (none_selection_safe (constructed (demo None [react; ng] [sv])) Right
           "s").
  - split; [vm_compute; lia |].
    split; [by exists (JStr "No items") |].
    split; [by exists (JStr "Nothing matches your search") | by exists true].
  - reflexivity.
Defined.

(** The run of [filter_checklist] that follows a transfer, on either side,
    changes nothing. *)
Lemma search_after_transfer (w : Widget) (s s' : Side) (ph : jvalue)
    (t : list string) :
  well_formed w →
  data_placeholder w = json_dumps ph →
  dispatch (after_transfer w s ph t) (SearchChanged s' EmptyString) =
  Ok (after_transfer w s ph t).
Proof.
  intros Hw Hph.
  destruct (dispatch_search (after_transfer w s ph t) s' EmptyString)
    as (c & -> & ->); [by apply after_transfer_well_formed |].
  rewrite (filtered_items_unset (Some EmptyString)) by done.
  rewrite (placeholder_of_dumps _ ph) by done.
  f_equal. unfold after_transfer.
  destruct s'; simpl; unfold new_children, list_of; simpl;
    by destruct (by_side s _) as [[|? ?] [|? ?]].
Qed.

(** ** The limit *)

(** The values a click transfers do not depend on what is rendered, the only
    place where [limit] is used. *)
Lemma values_to_transfer_children (w : Widget) (c : Sides Children)
    (button : string) (s : Side) :
  values_to_transfer (set_checklist w c (checklist_value w)) button s =
  values_to_transfer w button s.
Proof. reflexivity. Qed.

(** C6: with [limit=1] the constructor renders one checkbox for a list of two
    items, but the first search and the first transfer render every item
    that is left: [filter_checklist] and [transfer_values] do not truncate. *)
Theorem limit_only_at_construction :
  ∃ w w1 w2,
    TransferList.__init__ (demo (Some 1%Z) [react; ng; vue] []) = Ok w ∧
    on_left (checklist_children w) = Checkboxes [checkbox react] ∧
    dispatch w (SearchChanged Left "a") = Ok w1 ∧
    on_left (checklist_children w1) = Checkboxes [checkbox react; checkbox ng] ∧
    run w [Checked Left ["react"]; Transfer Left] = Ok w2 ∧
    on_left (checklist_children w2) = Checkboxes [checkbox ng; checkbox vue].
Proof. do 3 eexists. by repeat split. Qed.

(** ** The empty states *)

(** With the settings of [__init__], a search change never leaves the
    checklist without children: the two guards on the texts always hold. *)
Lemma search_renders_something (w w' : Widget) (s : Side) (text : string) :
  well_formed w →
  dispatch w (SearchChanged s text) = Ok w' →
  at_side s (checklist_children w') ≠ NoChildren.
Proof.
  intros Hw Hd. destruct (dispatch_search w s text Hw) as (c & Hc & ->).
  rewrite Hc in Hd. injection Hd as <-.
  destruct (filtered_items _ _), s; done.
Qed.

(** A configured text is what an empty filter result shows. *)
Lemma search_renders_text (w w' : Widget) (s : Side) (text : string)
    (nf ph : jvalue) :
  2 ≤ length (main_value w) →
  data_nothingfound w = json_dumps nf →
  data_placeholder w = json_dumps ph →
  (∃ b, data_transferallmatchingfilters w = json_dumps (JBool b)) →
  filtered_items (Some text) (list_of w s) = [] →
  dispatch w (SearchChanged s text) = Ok w' →
  at_side s (checklist_children w') =
  Text (if truthy_str (Some text) then nf else ph).
Proof.
  intros Hm Hnf Hph Hb Hf Hd.
  destruct (dispatch_search w s text) as (c & Hc & ->);
    [split; [done | split; [eauto | split; eauto]] |].
  rewrite Hc in Hd. injection Hd as <-.
  rewrite Hf, Hnf, json_loads_dumps, (placeholder_of_dumps w ph Hph).
  by destruct s.
Qed.

(** C9: without [nothingFound] and [placeholder] the settings are stored as
    the text [null], which is truthy, so a search without a match and an
    empty search on an empty list render a text element with no content
    instead of leaving the children unset. *)
Theorem unset_text_renders_element :
  ∃ w w1 w2,
    TransferList.__init__ (plain [react] []) = Ok w ∧
    data_nothingfound w = "null" ∧ data_placeholder w = "null" ∧
    filter_checklist (Some (mkId search_part "transferlist" "left"))
      (Some "zz") [[react]; []] "null" "null" None
      = Ok (upd (Text JNull), upd []) ∧
    dispatch w (SearchChanged Left "zz") = Ok w1 ∧
    on_left (checklist_children w1) = Text JNull ∧
    on_left (checklist_children w1) ≠ NoChildren ∧
    dispatch w (SearchChanged Right EmptyString) = Ok w2 ∧
    on_right (checklist_children w2) = Text JNull ∧
    on_right (checklist_children w2) ≠ NoChildren.
Proof. do 3 eexists. by repeat split. Qed.

(** * Further properties of the code *)

(** ** More on the filter *)

Lemma filter_none {A : Type} (P : A → Prop) `{!∀ x, Decision (P x)}
    (l : list A) :
  (∀ x, x ∈ l → ¬ P x) → filter P l = [].
Proof.
  induction l as [|x l IH]; intros HP; [done |].
  rewrite filter_cons_False by (apply HP; left).
  apply IH. intros y Hy. apply HP. by right.
Qed.

Lemma filter_ext_in {A : Type} (P Q : A → Prop) `{!∀ x, Decision (P x)}
    `{!∀ x, Decision (Q x)} (l : list A) :
  (∀ x, x ∈ l → P x ↔ Q x) → filter P l = filter Q l.
Proof.
  induction l as [|x l IH]; intros Hext; [done |].
  assert (filter P l = filter Q l) as Hl
    by (apply IH; intros y Hy; apply Hext; by right).
  rewrite !filter_cons, Hl.
  destruct (decide (P x)) as [HP | HP], (decide (Q x)) as [HQ | HQ];
    try done; exfalso.
  - apply HQ, (Hext x); [left | done].
  - apply HP, (Hext x); [left | done].
Qed.

(** X1: filtering a second time with the same search text changes nothing. *)
Theorem filtered_items_idempotent (search : option string)
    (items : list Item) :
  filtered_items search (filtered_items search items) =
  filtered_items search items.
Proof.
  unfold filtered_items. rewrite list_filter_filter.
  apply list_filter_iff. tauto.
Qed.

Lemma lower_ascii_idempotent (c : ascii) :
  lower_ascii (lower_ascii c) = lower_ascii c.
Proof. destruct c as [[] [] [] [] [] [] [] []]; reflexivity. Qed.

Lemma lower_idempotent (s : string) : lower (lower s) = lower s.
Proof.
  induction s as [|c s IH]; [done |].
  simpl. by rewrite lower_ascii_idempotent, IH.
Qed.


Lemma lower_truthy (q : string) :
  truthy_str (Some (lower q)) = truthy_str (Some q).
Proof. by destruct q. Qed.

Lemma matches_lower (q q' : string) (v : Item) :
  lower q = lower q' → matches (Some q) v = matches (Some q') v.
Proof.
  intros H. unfold matches.
  by rewrite <-(lower_truthy q), <-(lower_truthy q'), H.
Qed.

(** X2: the search ignores the case of the search text and of the labels:
    two texts with the same lower-case form select the same items, and an
    item is selected whenever the item with the lower-cased label is. *)
Theorem filtered_items_case (q q' : string) (items : list Item) :
  lower q = lower q' →
  filtered_items (Some q) items = filtered_items (Some q') items ∧
  Forall (λ v, matches (Some q) v =
               matches (Some q) (mkItem (value v) (lower (label v)))) items.
Proof.
  intros H. split.
  - apply list_filter_iff. intros v. by rewrite (matches_lower q q' v H).
  - apply Forall_forall. intros v _. unfold matches. simpl.
    by rewrite lower_idempotent.
Qed.

Lemma filtered_items_case_witness :
  filtered_items (Some "AN") [react; ng; vue] =
    filtered_items (Some "an") [react; ng; vue] ∧
  Forall (λ v, matches (Some "AN") v =
               matches (Some "AN") (mkItem (value v) (lower (label v))))
    [react; ng; vue].
Proof. apply (filtered_items_case "AN" "an"). reflexivity. Defined.







(** ** More on the selection *)

(** X4: the reconciled selection is a subsequence of the selection (order
    and repetitions are kept), it is left as it is when every selected value
    is visible, and reconciling it again changes nothing. *)
Theorem updated_selection_stable (selection : option (list string))
    (visible : list string) :
  updated_selection selection visible `sublist_of` default [] selection ∧
  updated_selection (Some (updated_selection selection visible)) visible =
    updated_selection selection visible ∧
  (if bool_decide (Forall (λ x, x ∈ visible) (default [] selection))
   then updated_selection selection visible = default [] selection
   else length (updated_selection selection visible)
        < length (default [] selection)).
Proof.
  unfold updated_selection. split; [apply sublist_filter |]. split.
  - simpl. rewrite list_filter_filter. apply list_filter_iff. tauto.
  - case_bool_decide as H.
    + apply filter_all. by apply Forall_forall.
    + apply not_Forall_Exists in H; [| apply _].
      apply Exists_exists in H as (x & Hx & Hn).
      by apply (length_filter_lt _ _ x).
Qed.

(** ** The limit at construction *)

Lemma slice_to_prefix {A : Type} (l : list A) (n : Z) :
  slice_to l n `prefix_of` l.
Proof. unfold slice_to. destruct (0 <=? n)%Z; apply prefix_take. Qed.

Lemma slice_to_length {A : Type} (l : list A) (n : Z) :
  length (slice_to l n) =
  if bool_decide (0 ≤ n)%Z then Z.to_nat n `min` length l
  else length l - Z.to_nat (- n).
Proof.
  unfold slice_to. case_bool_decide as H.
  - rewrite (proj2 (Z.leb_le 0 n) H). by rewrite length_take.
  - rewrite (proj2 (Z.leb_gt 0 n)) by lia. rewrite length_take. lia.
Qed.

(** X5: the checklist that the constructor renders shows a prefix of the
    items: all of them without a limit or with the limit 0, the first [n] for
    a positive limit [n], and all but the last [-n] for a negative one. *)
Theorem checklist_limit (items : list Item) (limit : option Z) :
  ∃ cs, TransferList.checklist items limit = Checkboxes cs ∧
        cs `prefix_of` (checkbox <$> items) ∧
        length cs =
          match limit with
          | None => length items
          | Some n =>
              if bool_decide (0 < n)%Z then Z.to_nat n `min` length items
              else if bool_decide (n = 0)%Z then length items
              else length items - Z.to_nat (- n)
          end.
Proof.
  unfold TransferList.checklist. eexists. split; [reflexivity |].
  destruct limit as [n|]; [| by rewrite length_fmap].
  case_bool_decide as H0.
  - subst n. by rewrite length_fmap.
  - split.
    + destruct (slice_to_prefix items n) as [k Hk].
      exists (checkbox <$> k). rewrite <-fmap_app. by rewrite <-Hk.
    + rewrite length_fmap, slice_to_length.
      repeat case_bool_decide; lia.
Qed.

(** ** What a transfer leaves behind *)

Lemma list_of_clicked (w : Widget) (e : Event) (s : Side) :
  list_of (clicked w e) s = list_of w s.
Proof. by destruct e. Qed.

Lemma well_formed_placeholder (w : Widget) :
  well_formed w → data_placeholder w = json_dumps (placeholder_of w).
Proof.
  intros (_ & [ph Hph] & _). by rewrite (placeholder_of_dumps w ph Hph).
Qed.

(** The outcome of a click that moves the values [t] from side [s]. *)
Lemma transfer_outcome (w : Widget) (e : Event) (button : string) (s : Side)
    (t : list string) :
  button_of e = Some (button, s) →
  well_formed w →
  w_showTransferAll w = true ∨ button = transfer_part →
  values_to_transfer w button s = Ok (Some t) →
  t ≠ [] →
  ∃ w', dispatch w e = Ok w' ∧ well_formed w' ∧
        list_of w' s = filter (λ v, value v ∉ t) (list_of w s) ∧
        list_of w' (other s) =
          list_of w (other s) ++ filter (λ v, value v ∈ t) (list_of w s) ∧
        checklist_value w' = mkSides (Some []) (Some []) ∧
        search_value w' = mkSides (Some EmptyString) (Some EmptyString) ∧
        checklist_children w' =
          mkSides (new_children (placeholder_of w) (list_of w' Left))
            (new_children (placeholder_of w) (list_of w' Right)) ∧
        placeholder_of w' = placeholder_of w ∧
        w_showTransferAll w' = w_showTransferAll w ∧
        data_transferallmatchingfilters w' = data_transferallmatchingfilters w.
Proof.
  intros He Hw Hb Ht Hne.
  rewrite (dispatch_click w e button s (Some t) He Hw Hb Ht).
  destruct t as [|x t]; [done |]. cbn [truthy_list default from_option id].
  eexists. split; [reflexivity |].
  destruct (clicked_fields w e) as (_ & Hwf & _).
  split; [by apply after_transfer_well_formed, Hwf |].
  destruct (after_transfer_lists (clicked w e) s (placeholder_of w) (x :: t))
    as [Hs Ho].
  rewrite !list_of_clicked in Hs, Ho.
  split; [done |]. split; [done |]. split; [done |]. split; [done |].
  split; [by destruct s |]. split; [| by destruct e].
  unfold placeholder_of. by destruct e.
Qed.

Lemma filter_in_values (items : list Item) :
  filter (λ v, value v ∈ value <$> items) items = items ∧
  filter (λ v, value v ∉ value <$> items) items = [].
Proof.
  split.
  - apply filter_all. intros v Hv. apply list_elem_of_fmap. eauto.
  - apply filter_none. intros v Hv Hn. apply Hn, list_elem_of_fmap. eauto.
Qed.

(** X6: a transfer-all click that does not restrict to the search (the
    setting [transferAllMatchingFilters] is false, or the search text of the
    side is empty or unset) empties a non-empty source: every item is
    appended to the other list in its order, the source shows the
    placeholder text and both search texts and selections are reset. *)
Theorem transfer_all_empties (w : Widget) (s : Side) (b : bool) :
  well_formed w →
  w_showTransferAll w = true →
  data_transferallmatchingfilters w = json_dumps (JBool b) →
  b = false ∨ truthy_str (at_side s (search_value w)) = false →
  list_of w s ≠ [] →
  ∃ w', dispatch w (TransferAll s) = Ok w' ∧
        list_of w' s = [] ∧
        list_of w' (other s) = list_of w (other s) ++ list_of w s ∧
        at_side s (checklist_children w') = Text (placeholder_of w) ∧
        checklist_value w' = mkSides (Some []) (Some []) ∧
        search_value w' = mkSides (Some EmptyString) (Some EmptyString).
Proof.
  intros Hw Hshow Hb Hall Hne.
  assert (values_to_transfer w transfer_all_part s
          = Ok (Some (value <$> list_of w s))) as Ht.
  { rewrite (values_to_transfer_all w s b) by (done || apply Hw).
    destruct Hall as [-> | Hq]; [done |].
    destruct b; [| done]. by rewrite filtered_items_unset. }
  destruct (transfer_outcome w (TransferAll s) transfer_all_part s _
              eq_refl Hw (or_introl Hshow) Ht)
    as (w' & Hd & _ & Hs & Ho & Hsel & Hq & Hc & _).
  { destruct (list_of w s); [done | discriminate]. }
  destruct (filter_in_values (list_of w s)) as [Hin Hout].
  rewrite Hout in Hs. rewrite Hin in Ho.
  exists w'. split; [done |]. split; [done |]. split; [done |].
  split; [| done]. rewrite Hc. destruct s; simpl in *; by rewrite Hs.
Qed.

Lemma transfer_all_empties_witness :
  ∃ w', dispatch
          (state_after (constructed (demo_all [react; ng] [sv]))
             [SearchChanged Left "re"]) (TransferAll Left) = Ok w' ∧
        list_of w' Left = [] ∧
        list_of w' (other Left) =
          list_of (state_after (constructed (demo_all [react; ng] [sv]))
                     [SearchChanged Left "re"]) (other Left) ++
          list_of (state_after (constructed (demo_all [react; ng] [sv]))
                     [SearchChanged Left "re"]) Left ∧
        at_side Left (checklist_children w') =
          Text (placeholder_of
                  (state_after (constructed (demo_all [react; ng] [sv]))
                     [SearchChanged Left "re"])) ∧
        checklist_value w' = mkSides (Some []) (Some []) ∧
        search_value w' = mkSides (Some EmptyString) (Some EmptyString).
Proof.
  apply (transfer_all_empties _ Left false).
  - split; [vm_compute; lia |].
    split; [by exists (JStr "No items") |].
    split; [by exists (JStr "Nothing matches your search") | by exists false].
  - reflexivity.
  - reflexivity.
  - by left.
  - discriminate.
Defined.

Lemma NoDup_fmap_eq {A B : Type} (f : A → B) (l : list A) (x y : A) :
  NoDup (f <$> l) → x ∈ l → y ∈ l → f x = f y → x = y.
Proof.
  induction l as [|z l IH]; intros Hnd Hx Hy Hf; [by apply elem_of_nil in Hx |].
  apply NoDup_cons in Hnd as [Hz Hnd].
  apply elem_of_cons in Hx as [-> | Hx], Hy as [-> | Hy]; [done | | | by apply IH].
  - exfalso. apply Hz. rewrite Hf. by apply list_elem_of_fmap_2.
  - exfalso. apply Hz. rewrite <-Hf. by apply list_elem_of_fmap_2.
Qed.

(** X7: when the values of the source are pairwise distinct, a transfer-all
    click under [transferAllMatchingFilters] moves exactly the items that
    match the search text of the side: the items that do not match stay, in
    order, and the matching ones are appended to the other list. *)
Theorem transfer_all_matching (w : Widget) (s : Side) :
  well_formed w →
  w_showTransferAll w = true →
  data_transferallmatchingfilters w = json_dumps (JBool true) →
  NoDup (value <$> list_of w s) →
  filtered_items (at_side s (search_value w)) (list_of w s) ≠ [] →
  ∃ w', dispatch w (TransferAll s) = Ok w' ∧
        list_of w' s =
          filter (λ v, ¬ matches (at_side s (search_value w)) v) (list_of w s) ∧
        list_of w' (other s) =
          list_of w (other s) ++
          filtered_items (at_side s (search_value w)) (list_of w s).
Proof.
  intros Hw Hshow Hb Hnd Hne.
  assert (values_to_transfer w transfer_all_part s
          = Ok (Some (value <$> filtered_items (at_side s (search_value w))
                                  (list_of w s)))) as Ht
    by (rewrite (values_to_transfer_all w s true); done || apply Hw).
  destruct (transfer_outcome w (TransferAll s) transfer_all_part s _
              eq_refl Hw (or_introl Hshow) Ht)
    as (w' & Hd & _ & Hs & Ho & _).
  { intros H. by apply fmap_nil_inv in H. }
  assert (∀ v, v ∈ list_of w s →
            value v ∈ value <$> filtered_items (at_side s (search_value w))
                                  (list_of w s)
            ↔ matches (at_side s (search_value w)) v) as Hiff.
  { intros v Hv. rewrite list_elem_of_fmap. split.
    - intros (v' & Hval & [Hm Hv']%list_elem_of_filter).
      by rewrite (NoDup_fmap_eq value _ v v' Hnd Hv Hv' Hval).
    - intros Hm. exists v. split; [done |]. by apply list_elem_of_filter. }
  exists w'. split; [done |]. split.
  - rewrite Hs. apply filter_ext_in. intros v Hv.
    by rewrite (Hiff v Hv).
  - rewrite Ho. f_equal. by apply filter_ext_in.
Qed.

Lemma transfer_all_matching_witness :
  ∃ w', dispatch
          (state_after (constructed (demo None [react; ng; vue] [sv]))
             [SearchChanged Left "e"]) (TransferAll Left) = Ok w' ∧
        list_of w' Left =
          filter (λ v, ¬ matches (Some "e") v) [react; ng; vue] ∧
        list_of w' (other Left) =
          [sv] ++ filtered_items (Some "e") [react; ng; vue].
Proof.
  apply (transfer_all_matching
           (state_after (constructed (demo None [react; ng; vue] [sv]))
              [SearchChanged Left "e"]) Left).
  - split; [vm_compute; lia |].
    split; [by exists (JStr "No items") |].
    split; [by exists (JStr "Nothing matches your search") | by exists true].
  - reflexivity.
  - reflexivity.
  - by apply (bool_decide_unpack _).
  - discriminate.
Defined.

(** Items move by value: with the same value on two items of the source, a
    transfer-all under the search takes the item that does not match too. *)
Example transfer_all_matching_by_value :
  ∃ w', run (constructed (demo None [react; mkItem "react" "Vue"; ng] []))
          [SearchChanged Left "rea"; TransferAll Left] = Ok w' ∧
        filtered_items (Some "rea") [react; mkItem "react" "Vue"; ng]
          = [react] ∧
        main_value w' = [[ng]; [react; mkItem "react" "Vue"]].
Proof. by eexists. Qed.

(** ** Stale selections and repeated clicks *)

(** X8: a transfer-one click whose selection is not empty but names no value
    of the source moves nothing, and still resets both search texts and both
    selections. *)
Theorem transfer_stale_selection (w : Widget) (s : Side) (t : list string) :
  well_formed w →
  at_side s (checklist_value w) = Some t →
  t ≠ [] →
  Forall (λ v, value v ∉ t) (list_of w s) →
  ∃ w', dispatch w (Transfer s) = Ok w' ∧
        list_of w' Left = list_of w Left ∧
        list_of w' Right = list_of w Right ∧
        checklist_value w' = mkSides (Some []) (Some []) ∧
        search_value w' = mkSides (Some EmptyString) (Some EmptyString).
Proof.
  intros Hw Hsel Hne Hstale.
  assert (values_to_transfer w transfer_part s = Ok (Some t)) as Ht
    by (by rewrite values_to_transfer_one, Hsel).
  destruct (transfer_outcome w (Transfer s) transfer_part s t
              eq_refl Hw (or_intror eq_refl) Ht Hne)
    as (w' & Hd & _ & Hs & Ho & Hc & Hq & _).
  rewrite filter_all in Hs by (by apply Forall_forall).
  rewrite filter_none, app_nil_r in Ho
    by (intros v Hv Hin; by apply (proj1 (Forall_forall _ _) Hstale v)).
  exists w'. split; [done |]. by destruct s.
Qed.

Lemma transfer_stale_selection_witness :
  ∃ w', dispatch
          (state_after (constructed (demo None [react; ng] [sv]))
             [SearchChanged Right "s"; Checked Left ["vue"]])
          (Transfer Left) = Ok w' ∧
        list_of w' Left =
          list_of (state_after (constructed (demo None [react; ng] [sv]))
                     [SearchChanged Right "s"; Checked Left ["vue"]]) Left ∧
        list_of w' Right =
          list_of (state_after (constructed (demo None [react; ng] [sv]))
                     [SearchChanged Right "s"; Checked Left ["vue"]]) Right ∧
        checklist_value w' = mkSides (Some []) (Some []) ∧
        search_value w' = mkSides (Some EmptyString) (Some EmptyString).
Proof.
  apply (transfer_stale_selection _ Left ["vue"]).
  - split; [vm_compute; lia |].
    split; [by exists (JStr "No items") |].
    split; [by exists (JStr "Nothing matches your search") | by exists true].
  - reflexivity.
  - discriminate.
  - by apply (bool_decide_unpack _).
Defined.

(** X9: the transfer button does not act twice: right after a transfer-one
    click that moved a selection, a second click on the same button changes
    no field. *)
Theorem transfer_twice (w : Widget) (s : Side) (t : list string) :
  well_formed w →
  at_side s (checklist_value w) = Some t →
  t ≠ [] →
  ∃ w1 w2, dispatch w (Transfer s) = Ok w1 ∧
           dispatch w1 (Transfer s) = Ok w2 ∧
           same_fields w1 w2.
Proof.
  intros Hw Hsel Hne.
  assert (values_to_transfer w transfer_part s = Ok (Some t)) as Ht
    by (by rewrite values_to_transfer_one, Hsel).
  destruct (transfer_outcome w (Transfer s) transfer_part s t
              eq_refl Hw (or_intror eq_refl) Ht Hne)
    as (w1 & Hd & Hw1 & _ & _ & Hc & _).
  assert (values_to_transfer w1 transfer_part s = Ok (Some [])) as Ht1
    by (rewrite values_to_transfer_one, Hc; by destruct s).
  exists w1, (clicked w1 (Transfer s)). split; [done |]. split.
  - by rewrite (dispatch_click w1 (Transfer s) transfer_part s (Some [])
                  eq_refl Hw1 (or_intror eq_refl) Ht1).
  - apply clicked_fields.
Qed.

Lemma transfer_twice_witness :
  ∃ w1 w2,
    dispatch (state_after (constructed (demo None [react; ng] [sv]))
                [Checked Left ["ng"]]) (Transfer Left) = Ok w1 ∧
    dispatch w1 (Transfer Left) = Ok w2 ∧
    same_fields w1 w2.
Proof.
  apply (transfer_twice _ Left ["ng"]).
  - split; [vm_compute; lia |].
    split; [by exists (JStr "No items") |].
    split; [by exists (JStr "Nothing matches your search") | by exists true].
  - reflexivity.
  - discriminate.
Defined.

Lemma dispatch_checked (w : Widget) (s : Side) (t : list string) :
  well_formed w →
  ∃ w', dispatch w (Checked s t) = Ok w' ∧ well_formed w' ∧
        at_side s (checklist_value w') = Some t ∧
        (∀ s', list_of w' s' = list_of w s').
Proof.
  intros Hw. eexists. split; [reflexivity |].
  split; [by destruct Hw as (? & ? & ? & ?) |].
  split; [by destruct s | done].
Qed.

Lemma filter_filter_out {A : Type} (P : A → Prop) `{!∀ x, Decision (P x)}
    (l : list A) :
  filter (λ x, ¬ P x) (filter P l) = [] ∧ filter P (filter P l) = filter P l.
Proof.
  split.
  - apply filter_none. intros x [HP _]%list_elem_of_filter Hn. by apply Hn.
  - apply filter_all. by intros x [HP _]%list_elem_of_filter.
Qed.

(** X10: moving a selection to the other side and back restores the other
    list exactly and the source up to order: the items that travelled come
    back behind the items that stayed.  The other list must hold none of the
    selected values. *)
Theorem transfer_there_and_back (w : Widget) (s : Side) (t : list string) :
  well_formed w →
  at_side s (checklist_value w) = Some t →
  t ≠ [] →
  Forall (λ v, value v ∉ t) (list_of w (other s)) →
  ∃ w', run w [Transfer s; Checked (other s) t; Transfer (other s)] = Ok w' ∧
        list_of w' (other s) = list_of w (other s) ∧
        list_of w' s =
          filter (λ v, value v ∉ t) (list_of w s) ++
          filter (λ v, value v ∈ t) (list_of w s).
Proof.
  intros Hw Hsel Hne Hother.
  assert (values_to_transfer w transfer_part s = Ok (Some t)) as Ht
    by (by rewrite values_to_transfer_one, Hsel).
  destruct (transfer_outcome w (Transfer s) transfer_part s t
              eq_refl Hw (or_intror eq_refl) Ht Hne)
    as (w1 & Hd1 & Hw1 & Hs1 & Ho1 & _).
  destruct (dispatch_checked w1 (other s) t Hw1) as (w2 & Hd2 & Hw2 & Hsel2 & Hl2).
  assert (values_to_transfer w2 transfer_part (other s) = Ok (Some t)) as Ht2
    by (by rewrite values_to_transfer_one, Hsel2).
  destruct (transfer_outcome w2 (Transfer (other s)) transfer_part (other s) t
              eq_refl Hw2 (or_intror eq_refl) Ht2 Hne)
    as (w3 & Hd3 & _ & Hs3 & Ho3 & _).
  assert (other (other s) = s) as Hoo by (by destruct s).
  rewrite Hoo in Ho3. rewrite !Hl2, Ho1 in Hs3. rewrite !Hl2, Hs1, Ho1 in Ho3.
  destruct (filter_filter_out (λ v, value v ∈ t) (list_of w s)) as [Hout Hin].
  rewrite !filter_app in Hs3, Ho3.
  rewrite Hout, app_nil_r in Hs3. rewrite Hin in Ho3.
  rewrite filter_all in Hs3 by (by apply Forall_forall).
  rewrite (filter_none (λ v, value v ∈ t) (list_of w (other s))) in Ho3
    by (intros v Hv Hin'; by apply (proj1 (Forall_forall _ _) Hother v)).
  exists w3. split; [| done].
  cbn [run]. rewrite Hd1. cbn [mbind result_bind].
  rewrite Hd2. cbn [mbind result_bind]. by rewrite Hd3.
Qed.

Lemma transfer_there_and_back_witness :
  ∃ w', run (state_after (constructed (demo None [react; ng; vue] [sv]))
               [Checked Left ["ng"]])
          [Transfer Left; Checked (other Left) ["ng"]; Transfer (other Left)]
        = Ok w' ∧
        list_of w' (other Left) =
          list_of (state_after (constructed (demo None [react; ng; vue] [sv]))
                     [Checked Left ["ng"]]) (other Left) ∧
        list_of w' Left =
          filter (λ v, value v ∉ ["ng"])
            (list_of (state_after (constructed (demo None [react; ng; vue] [sv]))
                        [Checked Left ["ng"]]) Left) ++
          filter (λ v, value v ∈ ["ng"])
            (list_of (state_after (constructed (demo None [react; ng; vue] [sv]))
                        [Checked Left ["ng"]]) Left).
Proof.
  apply (transfer_there_and_back _ Left ["ng"]).
  - split; [vm_compute; lia |].
    split; [by exists (JStr "No items") |].
    split; [by exists (JStr "Nothing matches your search") | by exists true].
  - reflexivity.
  - discriminate.
  - by apply (bool_decide_unpack _).
Defined.

(** ** The items along a run *)

Lemma transfer_spec_items (source dest : list Item) (t : list string) :
  (transfer_spec source dest t).1 ++ (transfer_spec source dest t).2
  ≡ₚ source ++ dest.
Proof.
  unfold transfer_spec. simpl.
  rewrite (Permutation_app_comm dest), app_assoc.
  apply Permutation_app_tail.
  rewrite (Permutation_app_comm (filter _ source)).
  apply (filter_app_complement (λ v, value v ∈ t)).
Qed.

Lemma after_transfer_items (w : Widget) (s : Side) (ph : jvalue)
    (t : list string) :
  all_items (after_transfer w s ph t) ≡ₚ all_items w.
Proof.
  unfold all_items.
  destruct (after_transfer_lists w s ph t) as [Hs Ho].
  destruct s; simpl in Hs, Ho; rewrite Hs, Ho.
  - apply transfer_spec_items.
  - etrans; [apply Permutation_app_comm |].
    etrans; [apply transfer_spec_items | apply Permutation_app_comm].
Qed.

(** Every stimulus keeps the items of the two lists, as a multiset. *)
Lemma dispatch_items (w : Widget) (e : Event) :
  well_formed w →
  ∃ w', dispatch w e = Ok w' ∧ well_formed w' ∧ all_items w' ≡ₚ all_items w.
Proof.
  intros Hw.
  assert (∀ button s, button_of e = Some (button, s) →
            w_showTransferAll w = true ∨ button = transfer_part →
            ∃ w', dispatch w e = Ok w' ∧ well_formed w' ∧
                  all_items w' ≡ₚ all_items w) as Hclick.
  { intros button s He Hb.
    destruct (values_to_transfer_ok w button s Hw) as [t Ht].
    rewrite (dispatch_click w e button s t He Hw Hb Ht).
    destruct (clicked_fields w e) as (_ & Hwf & _).
    assert (all_items (clicked w e) = all_items w) as Hi by (by destruct e).
    eexists. split; [done |]. destruct (truthy_list t).
    - split; [by apply after_transfer_well_formed, Hwf |].
      by rewrite after_transfer_items, Hi.
    - rewrite Hi. auto. }
  destruct e as [s text|s sel|s|s].
  - destruct (dispatch_search w s text Hw) as (c & -> & _).
    eexists. split; [done |]. by destruct Hw as (? & ? & ? & ?).
  - eexists. split; [done |]. by destruct Hw as (? & ? & ? & ?).
  - apply (Hclick transfer_part s); auto.
  - destruct (w_showTransferAll w) eqn:Hs.
    + apply (Hclick transfer_all_part s); auto.
    + exists w. simpl. by rewrite Hs.
Qed.

Lemma run_items (w : Widget) (es : list Event) :
  well_formed w →
  ∃ w', run w es = Ok w' ∧ well_formed w' ∧ all_items w' ≡ₚ all_items w.
Proof.
  revert w. induction es as [|e es IH]; intros w Hw.
  - by exists w.
  - destruct (dispatch_items w e Hw) as (w1 & He & Hw1 & Hi1).
    destruct (IH w1 Hw1) as (w2 & Hr & Hw2 & Hi2).
    exists w2. simpl. rewrite He. simpl.
    split; [done |]. split; [done |]. by rewrite Hi2.
Qed.

(** X11: along any sequence of stimuli the two lists together hold the same
    items, labels included, as the value given to the constructor; no item is
    lost, repeated, invented or relabelled, also when a value occurs on both
    sides. *)
Theorem items_preserved (cfg : Config) (w : Widget) (es : list Event) :
  TransferList.__init__ cfg = Ok w →
  ∃ w', run w es = Ok w' ∧
        all_items w' ≡ₚ
          default [] (default [] (cfg_value cfg) !! 0) ++
          default [] (default [] (cfg_value cfg) !! 1).
Proof.
  intros Hinit.
  destruct (run_items w es (init_well_formed cfg w Hinit))
    as (w' & Hr & _ & Hi).
  exists w'. split; [done |]. rewrite Hi.
  apply init_ok in Hinit as (l & r & rest & -> & Hm & _).
  unfold all_items, list_of. by rewrite Hm.
Qed.

Lemma items_preserved_witness :
  ∃ w', run (constructed (plain [react; ng] [react]))
          [Checked Right ["react"]; Transfer Right; TransferAll Left] = Ok w' ∧
        all_items w' ≡ₚ
          default [] (default [] (cfg_value (plain [react; ng] [react])) !! 0) ++
          default [] (default [] (cfg_value (plain [react; ng] [react])) !! 1).
Proof. by apply (items_preserved (plain [react; ng] [react])). Defined.

(** X12: the demo page can always show the value: after any sequence of
    stimuli [udpate_display] raises no exception, and its two columns
    together list, as label and value, exactly the items given to the
    constructor. *)
Theorem display_after_run (cfg : Config) (w : Widget) (es : list Event) :
  TransferList.__init__ cfg = Ok w →
  ∃ w' source destination,
    run w es = Ok w' ∧
    udpate_display (main_value w') = Ok (source, destination) ∧
    source = display_line <$> list_of w' Left ∧
    destination = display_line <$> list_of w' Right ∧
    source ++ destination ≡ₚ display_line <$> all_items w.
Proof.
  intros Hinit.
  destruct (run_items w es (init_well_formed cfg w Hinit))
    as (w' & Hr & (Hm & _) & Hi).
  apply two_lists in Hm as (l & r & rest & Hm).
  exists w', (display_line <$> l), (display_line <$> r).
  split; [done |]. unfold udpate_display. rewrite Hm.
  split; [done |].
  assert (list_of w' Left = l ∧ list_of w' Right = r) as [Hl Hr']
    by (unfold list_of; by rewrite Hm).
  split; [by rewrite Hl |]. split; [by rewrite Hr' |].
  rewrite <-fmap_app. apply fmap_Permutation.
  rewrite <-Hi. unfold all_items. by rewrite Hl, Hr'.
Qed.

Lemma display_after_run_witness :
  ∃ w' source destination,
    run (constructed (demo None [react; ng] [sv]))
      [Checked Left ["react"]; Transfer Left] = Ok w' ∧
    udpate_display (main_value w') = Ok (source, destination) ∧
    source = display_line <$> list_of w' Left ∧
    destination = display_line <$> list_of w' Right ∧
    source ++ destination ≡ₚ
      display_line <$> all_items (constructed (demo None [react; ng] [sv])).
Proof. by apply (display_after_run (demo None [react; ng] [sv])). Defined.

Example display_scenario :
  udpate_display [[ng]; [sv; react]] =
  Ok (["Angular (ng)"], ["Svelte (sv)"; "React (react)"]).
Proof. reflexivity. Qed.

(** ** Selections and what is shown *)

Lemma rendered_checkboxes (items : list Item) :
  rendered_values (Checkboxes (checkbox <$> items)) = value <$> items.
Proof. simpl. by rewrite <-list_fmap_compose. Qed.

Lemma updated_selection_rendered (selection : option (list string))
    (filtered : list Item) (c : jvalue) :
  Forall (λ x, x ∈ rendered_values
                     match filtered with
                     | [] => Text c
                     | v :: f => Checkboxes (checkbox <$> v :: f)
                     end)
    (updated_selection selection (value <$> filtered)).
Proof.
  apply Forall_forall. intros x [Hx _]%list_elem_of_filter.
  destruct filtered as [|v f]; [by apply elem_of_nil in Hx |].
  by rewrite rendered_checkboxes.
Qed.

Lemma dispatch_selection (w : Widget) (e : Event) :
  well_formed w →
  selection_rendered w →
  valid_event w e →
  ∃ w', dispatch w e = Ok w' ∧ well_formed w' ∧ selection_rendered w'.
Proof.
  intros Hw Hsel Hv.
  assert (∀ button s, button_of e = Some (button, s) →
            w_showTransferAll w = true ∨ button = transfer_part →
            ∃ w', dispatch w e = Ok w' ∧ well_formed w' ∧
                  selection_rendered w') as Hclick.
  { intros button s He Hb.
    destruct (values_to_transfer_ok w button s Hw) as [t Ht].
    rewrite (dispatch_click w e button s t He Hw Hb Ht).
    destruct (clicked_fields w e) as ((_ & Hc & Hs & _) & Hwf & _).
    eexists. split; [done |]. destruct (truthy_list t).
    - split; [by apply after_transfer_well_formed, Hwf |].
      intros [|]; by apply Forall_nil.
    - split; [auto |]. intros s'. unfold selection_rendered in Hsel.
      rewrite Hc, Hs. apply Hsel. }
  destruct e as [s text|s sel|s|s].
  - destruct (dispatch_search w s text Hw) as (c & -> & ->).
    eexists. split; [done |].
    split; [by destruct Hw as (? & ? & ? & ?) |].
    intros s'. pose proof (Hsel s') as Hs'.
    pose proof (updated_selection_rendered (at_side s (checklist_value w))
                  (filtered_items (Some text) (list_of w s))) as Hnew.
    clear Hclick. destruct s, s'; try exact Hs'; exact (Hnew _).
  - eexists. split; [done |].
    split; [by destruct Hw as (? & ? & ? & ?) |].
    intros s'. pose proof (Hsel s') as Hs'.
    clear Hclick. destruct s, s'; try exact Hs'; exact Hv.
  - apply (Hclick transfer_part s); auto.
  - destruct (w_showTransferAll w) eqn:Hs.
    + apply (Hclick transfer_all_part s); auto.
    + exists w. simpl. by rewrite Hs.
Qed.

Lemma run_selection (w : Widget) (es : list Event) :
  well_formed w →
  selection_rendered w →
  valid_run w es →
  ∃ w', run w es = Ok w' ∧ selection_rendered w'.
Proof.
  revert w. induction es as [|e es IH]; intros w Hw Hsel Hv.
  - by exists w.
  - destruct Hv as [He Hv].
    destruct (dispatch_selection w e Hw Hsel He) as (w1 & Hd & Hw1 & Hsel1).
    rewrite Hd in Hv.
    destruct (IH w1 Hw1 Hsel1 Hv) as (w2 & Hr & Hsel2).
    exists w2. simpl. by rewrite Hd.
Qed.

Lemma init_selection (cfg : Config) (w : Widget) :
  TransferList.__init__ cfg = Ok w → checklist_value w = mkSides None None.
Proof.
  unfold TransferList.__init__.
  destruct (TransferList.title _ 0); [| done].
  cbn [mbind result_bind]. destruct (getitem_opt _ 0); [| done].
  cbn [mbind result_bind]. destruct (TransferList.title _ 1); [| done].
  cbn [mbind result_bind]. destruct (getitem_opt _ 1); [| done].
  cbn [mbind result_bind]. by intros [= <-].
Qed.

(** X13: when the user ticks only checkboxes that are shown, every selected
    value is, after any sequence of stimuli, the value of a checkbox shown
    on its side: a search change drops the selected values it hides and a
    transfer empties the selections, so a transfer-one click never names a
    value that is not rendered. *)
Theorem selection_stays_rendered (cfg : Config) (w : Widget)
    (es : list Event) :
  TransferList.__init__ cfg = Ok w →
  valid_run w es →
  ∃ w', run w es = Ok w' ∧ selection_rendered w' ∧
        ∀ s, ∃ t, values_to_transfer w' transfer_part s = Ok t ∧
                  Forall (λ x, x ∈ rendered_values
                                     (at_side s (checklist_children w')))
                    (default [] t).
Proof.
  intros Hinit Hv.
  assert (selection_rendered w) as Hsel.
  { intros s. rewrite (init_selection cfg w Hinit). by destruct s. }
  destruct (run_selection w es (init_well_formed cfg w Hinit) Hsel Hv)
    as (w' & Hr & Hsel').
  exists w'. split; [done |]. split; [done |].
  intros s. exists (at_side s (checklist_value w')).
  split; [apply values_to_transfer_one | apply Hsel'].
Qed.
Lemma selection_stays_rendered_witness :
  ∃ w', run (constructed (demo None [react; ng; vue] [sv]))
          [SearchChanged Left "a"; Checked Left ["react"; "ng"];
           SearchChanged Left "an"; Transfer Left; Checked Right ["ng"]]
        = Ok w' ∧ selection_rendered w' ∧
        ∀ s, ∃ t, values_to_transfer w' transfer_part s = Ok t ∧
                  Forall (λ x, x ∈ rendered_values
                                     (at_side s (checklist_children w')))
                    (default [] t).
Proof.
  apply (selection_stays_rendered (demo None [react; ng; vue] [sv])).
  - reflexivity.
  - vm_compute. repeat split; repeat constructor.
Defined.

(** ** The styles of the buttons *)

Lemma restyle_lookup (on : bool) (style : option (gmap string css))
    (k : string) :
  restyle on style !! k =
  if bool_decide (k = "cursor")
  then Some (if on then CssStr "pointer" else CssStr "default")
  else if bool_decide (k = "color")
  then Some (if on then CssNull else CssStr "gray")
  else default ∅ style !! k.
Proof.
  unfold restyle. repeat case_bool_decide; subst.
  - by rewrite lookup_insert_eq.
  - rewrite lookup_insert_ne by done. by rewrite lookup_insert_eq.
  - by rewrite !lookup_insert_ne.
Qed.

(** X14: after a search change the transfer-all button of that side is
    grayed, with the default cursor, exactly when no item matches the search
    text; every other key of its style is kept. *)
Theorem transfer_all_style_after_search (w : Widget) (s : Side)
    (text : string) (style : option (gmap string css)) (k : string) :
  well_formed w →
  ∃ w', dispatch w (SearchChanged s text) = Ok w' ∧
        transfer_all_style (at_side s (checklist_children w')) style !! k =
        if bool_decide (k = "cursor")
        then Some (if bool_decide
                        (filtered_items (Some text) (list_of w s) = [])
                   then CssStr "default" else CssStr "pointer")
        else if bool_decide (k = "color")
        then Some (if bool_decide
                        (filtered_items (Some text) (list_of w s) = [])
                   then CssStr "gray" else CssNull)
        else default ∅ style !! k.
Proof.
  intros Hw. destruct (dispatch_search w s text Hw) as (c & -> & ->).
  eexists. split; [reflexivity |].
  unfold transfer_all_style. rewrite restyle_lookup.
  assert (disabled
            (at_side s
               (checklist_children
                  (set_checklist
                     (set_search w (set_side s (Some text) (search_value w)))
                     (set_side s
                        match filtered_items (Some text) (list_of w s) with
                        | [] =>
                            Text (if truthy_str (Some text)
                                  then match json_loads (data_nothingfound w) with
                                       | Ok v => v
                                       | Raise _ => JNull
                                       end
                                  else placeholder_of w)
                        | v :: f => Checkboxes (checkbox <$> v :: f)
                        end (checklist_children w))
                     (set_side s
                        (Some (updated_selection
                                 (at_side s (checklist_value w))
                                 (value <$>
                                  filtered_items (Some text) (list_of w s))))
                        (checklist_value w)))))
          = bool_decide (filtered_items (Some text) (list_of w s) = []))
    as ->; [| by repeat case_bool_decide].
  destruct (filtered_items (Some text) (list_of w s)), s; done.
Qed.

Lemma transfer_all_style_after_search_witness :
  ∃ w', dispatch (constructed (demo None [react; ng] [sv]))
          (SearchChanged Left "zz") = Ok w' ∧
        transfer_all_style (at_side Left (checklist_children w'))
          (Some ({["height" := CssNum 34]} : gmap string css)) !! "color" =
        if bool_decide ("color" = "cursor")
        then Some (if bool_decide
                        (filtered_items (Some "zz")
                           (list_of (constructed (demo None [react; ng] [sv]))
                              Left) = [])
                   then CssStr "default" else CssStr "pointer")
        else if bool_decide ("color" = "color")
        then Some (if bool_decide
                        (filtered_items (Some "zz")
                           (list_of (constructed (demo None [react; ng] [sv]))
                              Left) = [])
                   then CssStr "gray" else CssNull)
        else default ∅ (Some ({["height" := CssNum 34]} : gmap string css)) !! "color".
Proof.
  apply (transfer_all_style_after_search
           (constructed (demo None [react; ng] [sv])) Left "zz").
  split; [vm_compute; lia |].
  split; [by exists (JStr "No items") |].
  split; [by exists (JStr "Nothing matches your search") | by exists true].
Defined.

(** X15: the gray style does not disable the button: without
    [transferAllMatchingFilters], after a search that matches nothing the
    transfer-all button of a non-empty list is grayed, and a click on it
    still moves every item of the list to the other side. *)
Theorem grayed_transfer_all_acts (w : Widget) (s : Side) (text : string) :
  well_formed w →
  w_showTransferAll w = true →
  data_transferallmatchingfilters w = json_dumps (JBool false) →
  list_of w s ≠ [] →
  filtered_items (Some text) (list_of w s) = [] →
  ∃ w1 w2, dispatch w (SearchChanged s text) = Ok w1 ∧
           disabled (at_side s (checklist_children w1)) = true ∧
           dispatch w1 (TransferAll s) = Ok w2 ∧
           list_of w2 s = [] ∧
           list_of w2 (other s) = list_of w (other s) ++ list_of w s.
Proof.
  intros Hw Hshow Hb Hne Hnone.
  destruct (dispatch_search w s text Hw) as (c & Hd & ->).
  rewrite Hnone in Hd.
  match type of Hd with _ = Ok ?x => set (w1 := x) in * end.
  assert (well_formed w1) as Hw1 by (by destruct Hw as (? & ? & ? & ?)).
  assert (∀ s', list_of w1 s' = list_of w s') as Hl by done.
  assert (values_to_transfer w1 transfer_all_part s
          = Ok (Some (value <$> list_of w s))) as Ht.
  { rewrite (values_to_transfer_all w1 s false) by (done || apply Hw1).
    by rewrite Hl. }
  destruct (transfer_outcome w1 (TransferAll s) transfer_all_part s _
              eq_refl Hw1 (or_introl Hshow) Ht)
    as (w2 & Hd2 & _ & Hs & Ho & _).
  { destruct (list_of w s); [done | discriminate]. }
  destruct (filter_in_values (list_of w s)) as [Hin Hout].
  rewrite (Hl s), Hout in Hs. rewrite (Hl s), (Hl (other s)), Hin in Ho.
  exists w1, w2. split; [done |]. split; [by destruct s |]. done.
Qed.

Lemma grayed_transfer_all_acts_witness :
  ∃ w1 w2,
    dispatch (constructed (demo_all [react; ng] [sv]))
      (SearchChanged Left "zz") = Ok w1 ∧
    disabled (at_side Left (checklist_children w1)) = true ∧
    dispatch w1 (TransferAll Left) = Ok w2 ∧
    list_of w2 Left = [] ∧
    list_of w2 (other Left) =
      list_of (constructed (demo_all [react; ng] [sv])) (other Left) ++
      list_of (constructed (demo_all [react; ng] [sv])) Left.
Proof.
  apply (grayed_transfer_all_acts (constructed (demo_all [react; ng] [sv]))
           Left "zz").
  - split; [vm_compute; lia |].
    split; [by exists (JStr "No items") |].
    split; [by exists (JStr "Nothing matches your search") | by exists false].
  - reflexivity.
  - reflexivity.
  - discriminate.
  - reflexivity.
Defined.

(** X16: the style callback of the transfer button throws a [TypeError] for
    a selection that is [null], which is the selection of both sides of a
    widget that was just constructed; for a selection that is a list it
    grays the button, with the default cursor, exactly when the list is
    empty, and keeps every other key of the style. *)
Theorem transfer_style_selection (cfg : Config) (w : Widget) (s : Side)
    (sel : list string) (style : option (gmap string css)) (k : string) :
  TransferList.__init__ cfg = Ok w →
  transfer_style (at_side s (checklist_value w)) style = Raise "TypeError" ∧
  ∃ st, transfer_style (Some sel) style = Ok st ∧
        st !! k =
        if bool_decide (k = "cursor")
        then Some (if bool_decide (sel = [])
                   then CssStr "default" else CssStr "pointer")
        else if bool_decide (k = "color")
        then Some (if bool_decide (sel = []) then CssStr "gray" else CssNull)
        else default ∅ style !! k.
Proof.
  intros Hinit. split.
  - rewrite (init_selection cfg w Hinit). by destruct s.
  - eexists. split; [reflexivity |]. rewrite restyle_lookup.
    destruct sel; by repeat case_bool_decide.
Qed.

Lemma transfer_style_selection_witness :
  transfer_style
    (at_side Right (checklist_value (constructed (demo None [react] [sv]))))
    (Some ({["height" := CssNum 34]} : gmap string css)) = Raise "TypeError" ∧
  ∃ st, transfer_style (Some ["sv"])
          (Some ({["height" := CssNum 34]} : gmap string css)) = Ok st ∧
        st !! "height" =
        if bool_decide ("height" = "cursor")
        then Some (if bool_decide (["sv"] = [])
                   then CssStr "default" else CssStr "pointer")
        else if bool_decide ("height" = "color")
        then Some (if bool_decide (["sv"] = [])
                   then CssStr "gray" else CssNull)
        else default ∅ (Some ({["height" := CssNum 34]} : gmap string css))
             !! "height".
Proof.
  by apply (transfer_style_selection (demo None [react] [sv])).
Defined.

(** ** The ids *)

Lemma side_id_lookup (p a s : string) :
  side_id p a s !! "part" = Some p ∧
  side_id p a s !! "aio_id" = Some a ∧
  side_id p a s !! "side" = Some s.
Proof. unfold side_id. by simplify_map_eq. Qed.

Lemma base_id_lookup (p a : string) :
  base_id p a !! "part" = Some p ∧
  base_id p a !! "aio_id" = Some a ∧
  base_id p a !! "side" = None.
Proof. unfold base_id. by simplify_map_eq. Qed.

(** X17: the ids do not collide: two side ids are equal only for the same
    part, widget and side, two base ids only for the same part and widget,
    and a base id is never a side id; so the components of one widget, and
    those of two widgets with different [aio_id], all have different ids. *)
Theorem ids_distinct (p a s p' a' s' : string) :
  (side_id p a s = side_id p' a' s' ↔ p = p' ∧ a = a' ∧ s = s') ∧
  (base_id p a = base_id p' a' ↔ p = p' ∧ a = a') ∧
  base_id p a ≠ side_id p' a' s' ∧
  NoDup [ids.search a "left"; ids.search a "right";
         ids.transfer a "left"; ids.transfer a "right";
         ids.transfer_all a "left"; ids.transfer_all a "right";
         ids.checklist a "left"; ids.checklist a "right"; ids.main a].
Proof.
  assert (∀ p a s p' a' s',
            side_id p a s = side_id p' a' s' → p = p' ∧ a = a' ∧ s = s')
    as Hside.
  { intros q b t q' b' t' H.
    destruct (side_id_lookup q b t) as (Hp & Ha & Hs).
    destruct (side_id_lookup q' b' t') as (Hp' & Ha' & Hs').
    rewrite H in Hp, Ha, Hs. by simplify_eq. }
  assert (∀ p a p' a' s', base_id p a ≠ side_id p' a' s') as Hbase.
  { intros q b q' b' t' H.
    destruct (base_id_lookup q b) as (_ & _ & Hs).
    destruct (side_id_lookup q' b' t') as (_ & _ & Hs').
    rewrite H in Hs. by simplify_eq. }
  split; [split; [apply Hside | by intros (-> & -> & ->)] |].
  split.
  { split; [| by intros (-> & ->)]. intros H.
    destruct (base_id_lookup p a) as (Hp & Ha & _).
    destruct (base_id_lookup p' a') as (Hp' & Ha' & _).
    rewrite H in Hp, Ha. by simplify_eq. }
  split; [apply Hbase |].
  unfold ids.search, ids.transfer, ids.transfer_all, ids.checklist, ids.main.
  repeat (apply NoDup_cons; split;
    [rewrite ?not_elem_of_cons; repeat split;
       try apply not_elem_of_nil;
       try (intros H; apply Hside in H as (? & ? & ?); discriminate);
       try (intros H; symmetry in H; by apply Hbase in H) |]).
  apply NoDup_nil_2.
Qed.

(** ** The texts of the constructor *)

(** X18: the texts given to the constructor come back from the callbacks as
    they were given, whatever characters they hold: a search without a match
    shows [nothingFound], and an empty search on an empty list shows
    [placeholder], which the constructor itself does not show (it renders an
    empty group of checkboxes for an empty list). *)
Theorem texts_round_trip (cfg : Config) (w : Widget) (s : Side)
    (text : string) :
  TransferList.__init__ cfg = Ok w →
  filtered_items (Some text) (list_of w s) = [] →
  ∃ w', dispatch w (SearchChanged s text) = Ok w' ∧
        at_side s (checklist_children w') =
          Text (json_of_str (if truthy_str (Some text)
                             then cfg_nothingFound cfg
                             else cfg_placeholder cfg)) ∧
        (if bool_decide (list_of w s = [])
         then at_side s (checklist_children w) = Checkboxes []
         else True).
Proof.
  intros Hinit Hnone.
  pose proof (init_well_formed cfg w Hinit) as Hw.
  apply init_ok in Hinit as (l & r & rest & _ & Hm & Hc & Hp & Hn & Ht).
  destruct (dispatch_search w s text Hw) as (c & Hd & ->).
  exists (set_checklist
            (set_search w (set_side s (Some text) (search_value w)))
            (set_side s
               (Text (if truthy_str (Some text)
                      then json_of_str (cfg_nothingFound cfg)
                      else json_of_str (cfg_placeholder cfg)))
               (checklist_children w))
            (set_side s
               (Some (updated_selection (at_side s (checklist_value w))
                        (value <$> filtered_items (Some text) (list_of w s))))
               (checklist_value w))).
  split.
  - rewrite Hd, Hnone, Hn, json_loads_dumps.
    by rewrite (placeholder_of_dumps w _ Hp).
  - split; [by destruct s, (truthy_str (Some text)) |].
    case_bool_decide as He; [| done].
    rewrite Hc. unfold list_of in He. rewrite Hm in He.
    assert (∀ limit, TransferList.checklist [] limit = Checkboxes [])
      as Hnil.
    { intros [n|]; [| done]. unfold TransferList.checklist, slice_to.
      case_bool_decide; [done |].
      destruct (0 <=? n)%Z; by rewrite take_nil. }
    destruct s; simpl in He; subst; apply Hnil.
Qed.

Lemma texts_round_trip_witness :
  ∃ w', dispatch
          (constructed
             (mkConfig "t" None (Some "none\found") (Some "no items")
                true None true (Some [[react]; []])))
          (SearchChanged Right EmptyString) = Ok w' ∧
        at_side Right (checklist_children w') =
          Text (json_of_str
                  (if truthy_str (Some EmptyString)
                   then cfg_nothingFound
                          (mkConfig "t" None (Some "none\found")
                             (Some "no items") true None true
                             (Some [[react]; []]))
                   else cfg_placeholder
                          (mkConfig "t" None (Some "none\found")
                             (Some "no items") true None true
                             (Some [[react]; []])))) ∧
        (if bool_decide
              (list_of (constructed
                          (mkConfig "t" None (Some "none\found")
                             (Some "no items") true None true
                             (Some [[react]; []]))) Right = [])
         then at_side Right
                (checklist_children
                   (constructed
                      (mkConfig "t" None (Some "none\found") (Some "no items")
                         true None true (Some [[react]; []]))))
              = Checkboxes []
         else True).
Proof.
  apply (texts_round_trip
           (mkConfig "t" None (Some "none\found") (Some "no items")
              true None true (Some [[react]; []]))); reflexivity.
Defined.
